(** * sabnzbd.utils.ssdp: SSDP announcer and its description.xml

    A shallow embedding of [sabnzbd/utils/ssdp.py].  Python [str] values are
    lists of Unicode code points, [bytes] values are lists of octets, the
    [uuid] and [hashlib.md5] library calls used by [SSDP.__init__] are
    written out, an [SSDP] instance is a record living in a heap of objects,
    and the background thread is a small step relation.  Calls of [logging]
    have no effect on the state of the module and are left out. *)

From Stdlib Require Import ZArith List Bool Lia String Ascii.
From stdpp Require Import base list.
Import ListNotations.
Open Scope Z_scope.

(** ** Python values *)

Module Py.

(** A [str] is a sequence of code points, a [bytes] a sequence of octets. *)
Definition str := list Z.
Definition bytes := list Z.

(** Exceptions the modelled code can raise. *)
Inductive exn :=
| OSError
| UnicodeEncodeError
| RuntimeError.

Inductive result (A : Type) :=
| Ok (a : A)
| Raise (e : exn).
Arguments Ok {A} a.
Arguments Raise {A} e.

Definition bind {A B} (m : result A) (k : A -> result B) : result B :=
  match m with
  | Ok a => k a
  | Raise e => Raise e
  end.

(** What a function returning [None] or a [str] hands back. *)
Inductive value :=
| VNone
| VStr (s : str).

(** ASCII source text of a literal, as code points. *)
Definition lit (s : string) : str :=
  map (fun a => Z.of_nat (nat_of_ascii a)) (list_ascii_of_string s).
Arguments lit s%_string.

Definition LF : Z := 10.
Definition CR : Z := 13.
Definition DQUOTE : Z := 34.

(** [s.replace("\n", "\r\n")]: every line feed becomes CR LF. *)
Fixpoint replace_lf_crlf (s : str) : str :=
  match s with
  | [] => []
  | c :: t => if c =? LF then CR :: LF :: replace_lf_crlf t
              else c :: replace_lf_crlf t
  end.

(** One code point in UTF-8 ([bytes(s, "utf-8")], strict error handler):
    surrogates cannot be encoded; a value outside [0, 0x10FFFF] is not a
    code point at all and is rejected the same way. *)
Definition utf8_char (c : Z) : option bytes :=
  if c <? 0 then None
  else if c <? 0x80 then Some [c]
  else if c <? 0x800 then
    Some [Z.lor 0xC0 (Z.shiftr c 6); Z.lor 0x80 (Z.land c 0x3F)]
  else if c <? 0x10000 then
    if (0xD800 <=? c) && (c <=? 0xDFFF) then None
    else Some [Z.lor 0xE0 (Z.shiftr c 12);
               Z.lor 0x80 (Z.land (Z.shiftr c 6) 0x3F);
               Z.lor 0x80 (Z.land c 0x3F)]
  else if c <? 0x110000 then
    Some [Z.lor 0xF0 (Z.shiftr c 18);
          Z.lor 0x80 (Z.land (Z.shiftr c 12) 0x3F);
          Z.lor 0x80 (Z.land (Z.shiftr c 6) 0x3F);
          Z.lor 0x80 (Z.land c 0x3F)]
  else None.

Fixpoint utf8 (s : str) : result bytes :=
  match s with
  | [] => Ok []
  | c :: t =>
      match utf8_char c with
      | None => Raise UnicodeEncodeError
      | Some bs =>
          match utf8 t with
          | Ok r => Ok (bs ++ r)
          | Raise e => Raise e
          end
      end
  end.

(** Occurrences of [pat] in [s], counted at every start position. *)
Fixpoint is_prefix (pat s : list Z) : bool :=
  match pat, s with
  | [], _ => true
  | _ :: _, [] => false
  | a :: pat', c :: s' => (a =? c) && is_prefix pat' s'
  end.

Fixpoint count_sub (pat s : list Z) : nat :=
  match s with
  | [] => 0%nat
  | _ :: t => ((if is_prefix pat s then 1 else 0) + count_sub pat t)%nat
  end.

Definition contains (pat s : list Z) : Prop :=
  exists pre post, s = pre ++ pat ++ post.

(** Text of code points below 128 only. *)
Definition is_ascii (s : str) : bool :=
  forallb (fun c => (0 <=? c) && (c <? 128)) s.

(** No end of [a] is a beginning of [pat] short of all of it: an occurrence
    of [pat] cannot start in [a] and run past its end. *)
Fixpoint no_tail_prefix (pat a : list Z) : bool :=
  match a with
  | [] => true
  | _ :: a' =>
      negb (is_prefix a pat && (length a <? length pat)%nat)
      && no_tail_prefix pat a'
  end.

(** No beginning of [r] is an end of [pat] short of all of it: an occurrence
    of [pat] cannot start before [r] and end inside it. *)
Definition no_head_suffix (pat r : list Z) : bool :=
  forallb (fun k => negb (is_prefix (skipn k pat) r))
          (seq 1 (length pat - 1)).

End Py.

(** ** hashlib.md5 *)

Module MD5.

Definition mask32 : Z := 0xFFFFFFFF.
Definition add32 (x y : Z) : Z := (x + y) mod 2 ^ 32.
Definition not32 (x : Z) : Z := Z.lxor x mask32.
Definition rotl32 (x n : Z) : Z :=
  Z.lor (Z.land (Z.shiftl x n) mask32) (Z.shiftr x (32 - n)).

Definition s_table : list Z :=
  [7; 12; 17; 22; 7; 12; 17; 22; 7; 12; 17; 22; 7; 12; 17; 22;
   5; 9; 14; 20; 5; 9; 14; 20; 5; 9; 14; 20; 5; 9; 14; 20;
   4; 11; 16; 23; 4; 11; 16; 23; 4; 11; 16; 23; 4; 11; 16; 23;
   6; 10; 15; 21; 6; 10; 15; 21; 6; 10; 15; 21; 6; 10; 15; 21].

Definition k_table : list Z :=
  [0xd76aa478; 0xe8c7b756; 0x242070db; 0xc1bdceee;
   0xf57c0faf; 0x4787c62a; 0xa8304613; 0xfd469501;
   0x698098d8; 0x8b44f7af; 0xffff5bb1; 0x895cd7be;
   0x6b901122; 0xfd987193; 0xa679438e; 0x49b40821;
   0xf61e2562; 0xc040b340; 0x265e5a51; 0xe9b6c7aa;
   0xd62f105d; 0x02441453; 0xd8a1e681; 0xe7d3fbc8;
   0x21e1cde6; 0xc33707d6; 0xf4d50d87; 0x455a14ed;
   0xa9e3e905; 0xfcefa3f8; 0x676f02d9; 0x8d2a4c8a;
   0xfffa3942; 0x8771f681; 0x6d9d6122; 0xfde5380c;
   0xa4beea44; 0x4bdecfa9; 0xf6bb4b60; 0xbebfbc70;
   0x289b7ec6; 0xeaa127fa; 0xd4ef3085; 0x04881d05;
   0xd9d4d039; 0xe6db99e5; 0x1fa27cf8; 0xc4ac5665;
   0xf4292244; 0x432aff97; 0xab9423a7; 0xfc93a039;
   0x655b59c3; 0x8f0ccc92; 0xffeff47d; 0x85845dd1;
   0x6fa87e4f; 0xfe2ce6e0; 0xa3014314; 0x4e0811a1;
   0xf7537e82; 0xbd3af235; 0x2ad7d2bb; 0xeb86d391].

(** Little-endian words and octets. *)
Definition le_bytes (n : nat) (x : Z) : list Z :=
  map (fun i => Z.land (Z.shiftr x (8 * Z.of_nat i)) 0xFF) (seq 0 n).

Fixpoint le_word (bs : list Z) : Z :=
  match bs with
  | [] => 0
  | b :: t => b + 256 * le_word t
  end.

Fixpoint words_of (n : nat) (bs : list Z) : list Z :=
  match n with
  | O => []
  | S n' => le_word (firstn 4 bs) :: words_of n' (skipn 4 bs)
  end.

Definition pad (msg : list Z) : list Z :=
  let len := Z.of_nat (length msg) in
  let zeros := Z.to_nat ((55 - len) mod 64) in
  msg ++ [0x80] ++ repeat 0 zeros ++ le_bytes 8 ((8 * len) mod 2 ^ 64).

Record state := St { sa : Z; sb : Z; sc : Z; sd : Z }.

Definition init : state :=
  St 0x67452301 0xefcdab89 0x98badcfe 0x10325476.

Definition round (m : list Z) (st : state) (i : nat) : state :=
  let '(St a b c d) := st in
  let iz := Z.of_nat i in
  let '(f, g) :=
    if iz <? 16 then (Z.lor (Z.land b c) (Z.land (not32 b) d), iz)
    else if iz <? 32 then
      (Z.lor (Z.land d b) (Z.land (not32 d) c), (5 * iz + 1) mod 16)
    else if iz <? 48 then (Z.lxor (Z.lxor b c) d, (3 * iz + 5) mod 16)
    else (Z.lxor c (Z.lor b (not32 d)), (7 * iz) mod 16) in
  let f' := add32 (add32 (add32 f a) (nth i k_table 0))
                  (nth (Z.to_nat g) m 0) in
  St d (add32 b (rotl32 f' (nth i s_table 0))) b c.

Definition block (st : state) (chunk : list Z) : state :=
  let m := words_of 16 chunk in
  let '(St a b c d) := fold_left (round m) (seq 0 64) st in
  St (add32 (sa st) a) (add32 (sb st) b) (add32 (sc st) c) (add32 (sd st) d).

Fixpoint blocks (n : nat) (st : state) (bs : list Z) : state :=
  match n with
  | O => st
  | S n' => blocks n' (block st (firstn 64 bs)) (skipn 64 bs)
  end.

(** [md5(msg).digest()]: sixteen octets. *)
Definition digest (msg : list Z) : list Z :=
  let p := pad msg in
  let '(St a b c d) := blocks (length p / 64) init p in
  le_bytes 4 a ++ le_bytes 4 b ++ le_bytes 4 c ++ le_bytes 4 d.

End MD5.

(** ** uuid.uuid3 and str(UUID) *)

Module UUID.

(** A UUID is its 128-bit integer. *)
Definition NAMESPACE_DNS : Z := 0x6ba7b8109dad11d180b400c04fd430c8.

(** [int.to_bytes(16, "big")] and [int.from_bytes(b, "big")]. *)
Definition to_bytes (u : Z) : Py.bytes := rev (MD5.le_bytes 16 u).
Definition from_bytes (bs : Py.bytes) : Z := MD5.le_word (rev bs).

(** [UUID(bytes=b, version=v)]: variant and version bits are overwritten. *)
Definition with_version (bs : Py.bytes) (version : Z) : Z :=
  let i := from_bytes bs in
  let i := Z.ldiff i (Z.shiftl 0xc000 48) in
  let i := Z.lor i (Z.shiftl 0x8000 48) in
  let i := Z.ldiff i (Z.shiftl 0xf000 64) in
  Z.lor i (Z.shiftl version 76).

Definition uuid3 (namespace : Z) (name : Py.str) : Py.result Z :=
  Py.bind (Py.utf8 name) (fun name_bytes =>
  let digest := MD5.digest (to_bytes namespace ++ name_bytes) in
  Py.Ok (with_version (firstn 16 digest) 3)).

Definition hex_digit (n : Z) : Z := if n <? 10 then 48 + n else 87 + n.

(** ['%032x' % int] *)
Definition hex32 (u : Z) : Py.str :=
  map (fun k => hex_digit (Z.land (Z.shiftr u (4 * (31 - Z.of_nat k))) 0xF))
      (seq 0 32).

Definition DASH : Z := 45.

(** [str(u)]: 8-4-4-4-12 lower-case hexadecimal digits. *)
Definition to_str (u : Z) : Py.str :=
  let h := hex32 u in
  firstn 8 h ++ [DASH] ++ firstn 4 (skipn 8 h) ++ [DASH] ++
  firstn 4 (skipn 12 h) ++ [DASH] ++ firstn 4 (skipn 16 h) ++ [DASH] ++
  skipn 20 h.

End UUID.

(** ** class SSDP(Thread) *)

Module Thread.

(** Where the thread body [SSDP.run] stands. *)
Inductive pc :=
| LoopTest   (* about to evaluate [while 1 and not self.__stop] *)
| Network    (* inside the [with socket.socket(...)] block *)
| Sleep.     (* inside [time.sleep(5)] *)

Inductive state :=
| Initial            (* constructed, [start()] not called *)
| Running (p : pc)   (* started, [run] has not returned *)
| Terminated.        (* [run] returned or raised *)

Definition is_alive (st : state) : bool :=
  match st with
  | Running _ => true
  | _ => false
  end.

(** [Thread.start()]: a thread is started at most once. *)
Definition start (st : state) : Py.result state :=
  match st with
  | Initial => Py.Ok (Running LoopTest)
  | _ => Py.Raise Py.RuntimeError
  end.

Inductive join_outcome :=
| JoinReturns
| JoinBlocks.

(** [Thread.join()]: an error before [start()], waits while the thread is
    alive, returns once it has terminated. *)
Definition join (st : state) : Py.result join_outcome :=
  match st with
  | Initial => Py.Raise Py.RuntimeError
  | Running _ => Py.Ok JoinBlocks
  | Terminated => Py.Ok JoinReturns
  end.

End Thread.

Record datagram := Datagram {
  payload : Py.bytes;
  group : Py.str;
  port : Z;
  ttl : Z
}.

Module SSDP.
Import Py.

Record t := Make {
  __host : str;
  __server_name : str;
  __url : str;
  __description : str;
  __myhostname : str;
  __uuid : Z;
  __mySSDPbroadcast : bytes;
  __myxml : str;
  __stop : bool;
  thread : Thread.state
}.

(** The f-string of the broadcast message, before CRLF conversion. *)
Definition broadcast_text (url uuid_s : str) : str :=
  lit "NOTIFY * HTTP/1.1
HOST: 239.255.255.250:1900
CACHE-CONTROL: max-age=60
LOCATION: " ++ url ++ lit "/description.xml
SERVER: SABnzbd
NT: upnp:rootdevice
USN: uuid:" ++ uuid_s ++ lit "::upnp:rootdevice
NTS: ssdp:alive
OPT: " ++ [DQUOTE] ++ lit "http://schemas.upnp.org/upnp/1/0/" ++ [DQUOTE]
  ++ lit "; ns=01

".

(** The f-string of description.xml. *)
Definition xml_text (url myhostname uuid_s : str) : str :=
  lit "<?xml version=" ++ [DQUOTE] ++ lit "1.0" ++ [DQUOTE]
  ++ lit " encoding=" ++ [DQUOTE] ++ lit "UTF-8" ++ [DQUOTE] ++ lit " ?>
<root xmlns=" ++ [DQUOTE] ++ lit "urn:schemas-upnp-org:device-1-0"
  ++ [DQUOTE] ++ lit ">
<specVersion>
<major>1</major>
<minor>0</minor>
</specVersion>
<URLBase>" ++ url ++ lit "</URLBase>
<device>
<deviceType>urn:schemas-upnp-org:device:Basic:1</deviceType>
<friendlyName>SABnzbd (" ++ myhostname ++ lit ")</friendlyName>
<manufacturer>SABnzbd Team</manufacturer>
<manufacturerURL>http://www.sabnzbd.org</manufacturerURL>
<modelDescription>SABnzbd downloader</modelDescription>
<modelURL>http://www.sabnzbd.org</modelURL>
<UDN>uuid:" ++ uuid_s ++ lit "</UDN>
<presentationURL>sabnzbd</presentationURL>
</device>
</root>".

(** [SSDP.__init__]; [gethostname] is what [socket.gethostname()] answers
    in the environment of the call. *)
Definition __init__ (gethostname : result str)
    (host server_name url description : str) : result t :=
  bind gethostname (fun myhostname =>
  bind (UUID.uuid3 UUID.NAMESPACE_DNS (myhostname ++ host)) (fun uuid =>
  let text := broadcast_text url (UUID.to_str uuid) in
  let text := replace_lf_crlf text in
  bind (utf8 text) (fun broadcast =>
  let xml := xml_text url myhostname (UUID.to_str uuid) in
  Ok {| __host := host;
        __server_name := server_name;
        __url := url;
        __description := description;
        __myhostname := myhostname;
        __uuid := uuid;
        __mySSDPbroadcast := broadcast;
        __myxml := xml;
        __stop := false;
        thread := Thread.Initial |}))).

Definition set_stop (b : bool) (self : t) : t :=
  Make (__host self) (__server_name self) (__url self) (__description self)
       (__myhostname self) (__uuid self) (__mySSDPbroadcast self)
       (__myxml self) b (thread self).

Definition set_thread (st : Thread.state) (self : t) : t :=
  Make (__host self) (__server_name self) (__url self) (__description self)
       (__myhostname self) (__uuid self) (__mySSDPbroadcast self)
       (__myxml self) (__stop self) st.

(** [SSDP.stop]: only the flag is written; the method returns at once. *)
Definition stop (self : t) : t := set_stop true self.

(** [Thread.start] inherited by [SSDP]. *)
Definition start (self : t) : result t :=
  bind (Thread.start (thread self)) (fun st => Ok (set_thread st self)).

Definition MCAST_GRP : str := lit "239.255.255.250".
Definition MCAST_PORT : Z := 1900.
Definition MULTICAST_TTL : Z := 2.

(** One step of the thread body [SSDP.run].  [io_ok] tells whether the
    socket calls of this iteration succeed; when they raise, the exception
    leaves [run] and the thread ends. *)
Definition run_step (io_ok : bool) (self : t) : option (t * list datagram) :=
  match thread self with
  | Thread.Running Thread.LoopTest =>
      if __stop self then Some (set_thread Thread.Terminated self, [])
      else Some (set_thread (Thread.Running Thread.Network) self, [])
  | Thread.Running Thread.Network =>
      if io_ok then
        Some (set_thread (Thread.Running Thread.Sleep) self,
              [Datagram (__mySSDPbroadcast self) MCAST_GRP MCAST_PORT
                        MULTICAST_TTL])
      else Some (set_thread Thread.Terminated self, [])
  | Thread.Running Thread.Sleep =>
      Some (set_thread (Thread.Running Thread.LoopTest) self, [])
  | _ => None
  end.

(** [SSDP.serve_xml] *)
Definition serve_xml (self : t) : value :=
  if __stop self then VNone else VStr (__myxml self).

End SSDP.

(** ** Module level: the tracked instance and the wrapper functions *)

(** The application thread is either free to call into the module or is
    waiting inside the [join()] of [stop_ssdp]. *)
Inductive caller_state :=
| Ready
| InJoin (r : nat).

(** Instances are shared between the module global, the caller and their
    own thread: they live in a heap and are named by their index. *)
Record world := World {
  heap : list SSDP.t;
  __SSDP : option nat;
  sent : list datagram;
  caller : caller_state
}.

Definition initial : world := World [] None [] Ready.

Definition set_heap (h : list SSDP.t) (w : world) : world :=
  World h (__SSDP w) (sent w) (caller w).

Definition set_caller (c : caller_state) (w : world) : world :=
  World (heap w) (__SSDP w) (sent w) c.

Definition tracked (w : world) : option SSDP.t :=
  match __SSDP w with
  | Some r => heap w !! r
  | None => None
  end.

Inductive call_outcome :=
| Returned
| Waiting (r : nat).

(** [start_ssdp]: the global is bound to the new instance, then the
    instance is started. *)
Definition start_ssdp (gethostname : Py.result Py.str)
    (host server_name url description : Py.str) (w : world)
  : world * Py.result unit :=
  match SSDP.__init__ gethostname host server_name url description with
  | Py.Raise e => (w, Py.Raise e)
  | Py.Ok o =>
      let r := length (heap w) in
      let w1 := World (heap w ++ [o]) (Some r) (sent w) (caller w) in
      match SSDP.start o with
      | Py.Raise e => (w1, Py.Raise e)
      | Py.Ok o' => (set_heap (<[r:=o']> (heap w1)) w1, Py.Ok tt)
      end
  end.

(** [stop_ssdp]: behind the guard, [stop()] and then [join()]; the outcome
    says whether the call has returned or waits for the thread of [r]. *)
Definition stop_ssdp (w : world) : world * Py.result call_outcome :=
  match __SSDP w with
  | None => (w, Py.Ok Returned)
  | Some r =>
      match heap w !! r with
      | None => (w, Py.Ok Returned)
      | Some o =>
          if Thread.is_alive (SSDP.thread o) then
            let o1 := SSDP.stop o in
            let w1 := set_heap (<[r:=o1]> (heap w)) w in
            match Thread.join (SSDP.thread o1) with
            | Py.Ok Thread.JoinReturns => (w1, Py.Ok Returned)
            | Py.Ok Thread.JoinBlocks => (w1, Py.Ok (Waiting r))
            | Py.Raise e => (w1, Py.Raise e)
            end
          else (w, Py.Ok Returned)
      end
  end.

(** [server_ssdp_xml] *)
Definition server_ssdp_xml (w : world) : Py.value :=
  match tracked w with
  | Some o =>
      if Thread.is_alive (SSDP.thread o) then SSDP.serve_xml o
      else Py.VStr []
  | None => Py.VStr []
  end.

(** ** Executions

    Calls made by the application thread, the return of a pending [join()],
    and steps of the background threads, interleaved. *)
Inductive event :=
| CallNew (gethostname : Py.result Py.str)
          (host server_name url description : Py.str)
| CallStart (r : nat)
| CallStop (r : nat)
| CallStartSsdp (gethostname : Py.result Py.str)
                (host server_name url description : Py.str)
| CallStopSsdp
| JoinDone
| Run (r : nat) (io_ok : bool).

Definition is_ready (w : world) : bool :=
  match caller w with
  | Ready => true
  | InJoin _ => false
  end.

(** [step e w] is [None] when [e] cannot happen in [w]: the caller is
    blocked, the object does not exist, the thread is not running or the
    joined thread is still alive.  A call that raises is a step too. *)
Definition step (e : event) (w : world) : option world :=
  match e with
  | CallNew g h n u d =>
      if is_ready w then
        match SSDP.__init__ g h n u d with
        | Py.Ok o => Some (set_heap (heap w ++ [o]) w)
        | Py.Raise _ => Some w
        end
      else None
  | CallStart r =>
      if is_ready w then
        match heap w !! r with
        | Some o =>
            match SSDP.start o with
            | Py.Ok o' => Some (set_heap (<[r:=o']> (heap w)) w)
            | Py.Raise _ => Some w
            end
        | None => None
        end
      else None
  | CallStop r =>
      if is_ready w then
        match heap w !! r with
        | Some o => Some (set_heap (<[r:=SSDP.stop o]> (heap w)) w)
        | None => None
        end
      else None
  | CallStartSsdp g h n u d =>
      if is_ready w then Some (fst (start_ssdp g h n u d w)) else None
  | CallStopSsdp =>
      if is_ready w then
        match stop_ssdp w with
        | (w', Py.Ok (Waiting r)) => Some (set_caller (InJoin r) w')
        | (w', _) => Some w'
        end
      else None
  | JoinDone =>
      match caller w with
      | InJoin r =>
          match heap w !! r with
          | Some o =>
              match Thread.join (SSDP.thread o) with
              | Py.Ok Thread.JoinReturns => Some (set_caller Ready w)
              | _ => None
              end
          | None => None
          end
      | Ready => None
      end
  | Run r io_ok =>
      match heap w !! r with
      | Some o =>
          match SSDP.run_step io_ok o with
          | Some (o', ds) =>
              Some (World (<[r:=o']> (heap w)) (__SSDP w) (sent w ++ ds)
                          (caller w))
          | None => None
          end
      | None => None
      end
  end.

Fixpoint exec (es : list event) (w : world) : option world :=
  match es with
  | [] => Some w
  | e :: es' =>
      match step e w with
      | Some w' => exec es' w'
      | None => None
      end
  end.

Definition reachable (w : world) : Prop :=
  exists es, exec es initial = Some w.

(** The fields of an instance that [__init__] computes from its inputs. *)
Definition frozen (o : SSDP.t) :=
  (SSDP.__host o, SSDP.__server_name o, SSDP.__url o, SSDP.__description o,
   SSDP.__myhostname o, SSDP.__uuid o, SSDP.__mySSDPbroadcast o,
   SSDP.__myxml o).

(** ** What the properties are stated with *)

Module Spec.
Import Py.

(** The announcement as the specification words it: header lines, each
    closed by CR LF, and a blank line at the end.  This follows the text of
    the specification, not the f-string of the source; the theorems compare
    the two. *)
Definition CRLF : str := [CR; LF].

Definition usn_value (id : str) : str :=
  lit "uuid:" ++ id ++ lit "::upnp:rootdevice".

Definition header_lines (url id : str) : list str :=
  [ lit "NOTIFY * HTTP/1.1";
    lit "HOST: 239.255.255.250:1900";
    lit "CACHE-CONTROL: max-age=60";
    lit "LOCATION: " ++ url ++ lit "/description.xml";
    lit "SERVER: SABnzbd";
    lit "NT: upnp:rootdevice";
    lit "USN: " ++ usn_value id;
    lit "NTS: ssdp:alive";
    lit "OPT: " ++ [DQUOTE] ++ lit "http://schemas.upnp.org/upnp/1/0/"
      ++ [DQUOTE] ++ lit "; ns=01" ].

Definition announcement (url id : str) : str :=
  concat (map (fun l => l ++ CRLF) (header_lines url id)) ++ CRLF.

(** The character that opens a tag, and the text with which every start tag
    of an element [name] begins, whatever follows the name. *)
Definition LT : Z := 60.
Definition tag_start (name : str) : str := LT :: name.

(** An element without attributes, as text. *)
Definition element_text (name content : str) : str :=
  lit "<" ++ name ++ lit ">" ++ content ++ lit "</" ++ name ++ lit ">".

(** Text that stands for itself as XML character data: legal XML
    characters from the space on, none of them [<], [>] or [&]. *)
Definition xml_plain_char (c : Z) : bool :=
  (0x20 <=? c) && (c <=? 0x10FFFF)
  && negb ((0xD800 <=? c) && (c <=? 0xDFFF))
  && negb (c =? 0xFFFE) && negb (c =? 0xFFFF)
  && negb (c =? 60) && negb (c =? 62) && negb (c =? 38).

Definition xml_plain (s : str) : bool := forallb xml_plain_char s.

(** [xml] has the beginning of a start tag of [name] in one place only, and
    the element that stands there has the plain text [content] between its
    tags. *)
Definition only_element (name content xml : str) : Prop :=
  count_sub (tag_start name) xml = 1%nat /\
  contains (element_text name content) xml /\
  xml_plain content = true.

(** Every line feed of [bs] directly follows a carriage return; [prev] is
    the octet before [bs]. *)
Fixpoint lf_after_cr (prev : Z) (bs : bytes) : bool :=
  match bs with
  | [] => true
  | b :: t => (negb (b =? LF) || (prev =? CR)) && lf_after_cr b t
  end.

(** A number without a bit at position 128 or above. *)
Definition high_zero (x : Z) : Prop :=
  forall n, 128 <= n -> Z.testbit x n = false.

(** The characters [str(UUID)] is made of. *)
Definition hexdash (c : Z) : Prop :=
  48 <= c <= 57 \/ 97 <= c <= 102 \/ c = 45.

(** One object as it was and as it is later: the computed fields are the
    same, a set flag stays set, a finished thread stays finished. *)
Definition evolves (o o' : SSDP.t) : Prop :=
  frozen o' = frozen o /\
  (SSDP.__stop o = true -> SSDP.__stop o' = true) /\
  (SSDP.thread o = Thread.Terminated -> SSDP.thread o' = Thread.Terminated).

(** While the caller waits in the join on [r], or once the thread of [r] has
    ended, the flag of [r] is set; a step keeps that. *)
Definition joined (r : nat) (w : world) : Prop :=
  exists o, heap w !! r = Some o /\ SSDP.__stop o = true /\
    (SSDP.thread o = Thread.Terminated \/ caller w = InJoin r).

(** An object some construction produced, possibly evolved since. *)
Definition built (o : SSDP.t) : Prop :=
  exists g h n u d o0, SSDP.__init__ g h n u d = Ok o0 /\ evolves o0 o.

(** Both payloads of a construction, or the exception it raised. *)
Definition payloads (r : result SSDP.t) : result (bytes * str) :=
  bind r (fun o => Ok (SSDP.__mySSDPbroadcast o, SSDP.__myxml o)).

End Spec.

(** ** Sample inputs *)

Module Sample.
Import Py.

Definition hostname : str := lit "nas".
Definition host : str := lit "192.168.1.50".
Definition server_name : str := lit "TestServer".
Definition url : str := lit "http://192.168.1.50:8080".
Definition description : str := lit "x".

Definition construct : result SSDP.t :=
  SSDP.__init__ (Ok hostname) host server_name url description.

(** A base URL that carries a tag and ends in a line feed. *)
Definition odd_url : str := lit "http://nas/<UDN>
".

Definition construct_odd : result SSDP.t :=
  SSDP.__init__ (Ok hostname) host server_name odd_url description.

(** The same text [hostname + host], cut at another place. *)
Definition construct_shifted : result SSDP.t :=
  SSDP.__init__ (Ok (lit "nas1")) (lit "92.168.1.50") server_name url
                description.

Definition start_call : event :=
  CallStartSsdp (Ok hostname) host server_name url description.

Definition blank : SSDP.t :=
  SSDP.Make [] [] [] [] [] 0 [] [] false Thread.Initial.

(** The instance as [__init__] leaves it. *)
Definition fresh : SSDP.t :=
  match construct with
  | Ok o => o
  | Raise _ => blank
  end.

Definition odd : SSDP.t :=
  match construct_odd with
  | Ok o => o
  | Raise _ => blank
  end.

Definition shifted : SSDP.t :=
  match construct_shifted with
  | Ok o => o
  | Raise _ => blank
  end.

(** The instance as [start_ssdp] leaves it: constructed and started. *)
Definition instance : SSDP.t :=
  SSDP.set_thread (Thread.Running Thread.LoopTest) fresh.

(** The world after one [start_ssdp]. *)
Definition started : world :=
  fst (start_ssdp (Ok hostname) host server_name url description initial).

End Sample.

(** The guard of [stop_ssdp] and [server_ssdp_xml]. *)
Definition tracked_alive (w : world) : bool :=
  match tracked w with
  | Some o => Thread.is_alive (SSDP.thread o)
  | None => false
  end.


Definition is_start_ssdp (e : event) : bool :=
  match e with
  | CallStartSsdp _ _ _ _ _ => true
  | _ => false
  end.

(** ** More to state properties with *)

Module Obs.
Import Py.

(** A code point that [bytes(s, "utf-8")] accepts: in range and not a
    surrogate. *)
Definition encodable_char (c : Z) : bool :=
  (0 <=? c) && (c <? 0x110000) && negb ((0xD800 <=? c) && (c <=? 0xDFFF)).

Definition encodable (s : str) : bool := forallb encodable_char s.

(** How far a thread has come: not started, running, ended. *)
Definition rank (st : Thread.state) : nat :=
  match st with
  | Thread.Initial => 0
  | Thread.Running _ => 1
  | Thread.Terminated => 2
  end.

(** The thread of one instance left to itself for the given I/O outcomes:
    the instance at the end and the datagrams sent, oldest first.  It stops
    early when the thread is not running. *)
Fixpoint run_many (ios : list bool) (o : SSDP.t) : SSDP.t * list datagram :=
  match ios with
  | [] => (o, [])
  | io :: ios' =>
      match SSDP.run_step io o with
      | Some (o', ds) =>
          let (o'', ds') := run_many ios' o' in (o'', ds ++ ds')
      | None => (o, [])
      end
  end.

Definition is_run_of (r : nat) (e : event) : bool :=
  match e with
  | Run r' _ => Nat.eqb r' r
  | _ => false
  end.

(** A step of the thread of [r] in which a socket call raises. *)
Definition is_failed_run_of (r : nat) (e : event) : bool :=
  match e with
  | Run r' false => Nat.eqb r' r
  | _ => false
  end.

Definition is_run (e : event) : bool :=
  match e with
  | Run _ _ => true
  | _ => false
  end.

(** Datagrams the thread of [r] sends in the course of an execution. *)
Fixpoint sends_by (r : nat) (es : list event) (w : world) : nat :=
  match es with
  | [] => 0
  | e :: es' =>
      match step e w with
      | Some w' =>
          ((if is_run_of r e then length (sent w') - length (sent w) else 0)
           + sends_by r es' w')%nat
      | None => 0%nat
      end
  end.

(** Datagrams a thread can still send once its flag is set. *)
Definition may_send (o : SSDP.t) : nat :=
  match SSDP.thread o with
  | Thread.Running Thread.Network => 1
  | _ => 0
  end.

(** The one datagram an instance sends, over and over. *)
Definition announcement_of (o : SSDP.t) : datagram :=
  Datagram (SSDP.__mySSDPbroadcast o) SSDP.MCAST_GRP SSDP.MCAST_PORT
           SSDP.MULTICAST_TTL.

(** A datagram to 239.255.255.250:1900 with TTL 2 that carries the
    broadcast message of an instance of the heap. *)
Definition sent_by_instance (w : world) (d : datagram) : Prop :=
  exists r o, heap w !! r = Some o /\ d = announcement_of o.

(** The six characters a version-3, RFC 4122 UUID has in fixed places. *)
Definition uuid3_shape (s : str) : Prop :=
  length s = 36%nat /\
  nth 8 s 0 = UUID.DASH /\ nth 13 s 0 = UUID.DASH /\
  nth 18 s 0 = UUID.DASH /\ nth 23 s 0 = UUID.DASH /\
  nth 14 s 0 = 51 /\
  (nth 19 s 0 = 56 \/ nth 19 s 0 = 57 \/ nth 19 s 0 = 97 \/ nth 19 s 0 = 98).

End Obs.

(** * Properties *)

Arguments Py.lit : simpl never.
Arguments SSDP.broadcast_text : simpl never.
Arguments SSDP.xml_text : simpl never.
Arguments UUID.to_str : simpl never.
Arguments UUID.uuid3 : simpl never.

(** ** Objects *)

Section Objects.
Import Py.

Lemma evolves_refl o : Spec.evolves o o.
Proof. unfold Spec.evolves; auto. Qed.

Lemma evolves_trans o1 o2 o3 :
  Spec.evolves o1 o2 -> Spec.evolves o2 o3 -> Spec.evolves o1 o3.
Proof.
  intros (F1 & S1 & T1) (F2 & S2 & T2).
  repeat split; [congruence | auto | auto].
Qed.

Lemma evolves_stop o : Spec.evolves o (SSDP.stop o).
Proof. unfold Spec.evolves, SSDP.stop; simpl; auto. Qed.

Lemma start_inv o o' :
  SSDP.start o = Ok o' ->
  SSDP.thread o = Thread.Initial /\
  o' = SSDP.set_thread (Thread.Running Thread.LoopTest) o.
Proof.
  unfold SSDP.start. destruct (SSDP.thread o) eqn:E; simpl; try discriminate.
  intros [= <-]. auto.
Qed.

Lemma evolves_start o o' : SSDP.start o = Ok o' -> Spec.evolves o o'.
Proof.
  intros H. apply start_inv in H as [E ->].
  unfold Spec.evolves; simpl. repeat split; auto. congruence.
Qed.

Lemma run_step_inv io o o' ds :
  SSDP.run_step io o = Some (o', ds) ->
  exists p st, SSDP.thread o = Thread.Running p /\ o' = SSDP.set_thread st o.
Proof.
  unfold SSDP.run_step.
  destruct (SSDP.thread o) as [|[]|] eqn:E; try discriminate;
    try destruct (SSDP.__stop o); try destruct io;
    intros [= <- <-]; eauto.
Qed.

Lemma evolves_run io o o' ds :
  SSDP.run_step io o = Some (o', ds) -> Spec.evolves o o'.
Proof.
  intros H. apply run_step_inv in H as (p & st & E & ->).
  unfold Spec.evolves; simpl. repeat split; auto. congruence.
Qed.

Lemma bind_Ok {A B} (m : result A) (k : A -> result B) b :
  bind m k = Ok b -> exists a, m = Ok a /\ k a = Ok b.
Proof. destruct m as [a|e]; [eauto | discriminate]. Qed.

Lemma init_inv g h n u d o :
  SSDP.__init__ g h n u d = Ok o ->
  exists hn, g = Ok hn /\
    UUID.uuid3 UUID.NAMESPACE_DNS (hn ++ h) = Ok (SSDP.__uuid o) /\
    utf8 (replace_lf_crlf (SSDP.broadcast_text u (UUID.to_str (SSDP.__uuid o))))
      = Ok (SSDP.__mySSDPbroadcast o) /\
    SSDP.__myxml o = SSDP.xml_text u hn (UUID.to_str (SSDP.__uuid o)) /\
    SSDP.__host o = h /\ SSDP.__server_name o = n /\ SSDP.__url o = u /\
    SSDP.__description o = d /\ SSDP.__myhostname o = hn /\
    SSDP.__stop o = false /\ SSDP.thread o = Thread.Initial.
Proof.
  unfold SSDP.__init__. intros H.
  apply bind_Ok in H as (hn & -> & H).
  apply bind_Ok in H as (id & Eid & H).
  apply bind_Ok in H as (bs & Ebs & H).
  injection H as <-. exists hn.
  split; [reflexivity|]. split; [exact Eid|]. split; [exact Ebs|].
  repeat split; reflexivity.
Qed.

End Objects.

(** ** Worlds: what one step and one execution do to the heap *)

Section Worlds.
Import Py.

Lemma insert_snoc (h : list SSDP.t) (o o' : SSDP.t) :
  <[length h:=o']> (h ++ [o]) = h ++ [o'].
Proof. induction h as [|x h IH]; simpl; [reflexivity | now rewrite IH]. Qed.

Lemma start_ssdp_cases g h n u d w :
  (exists e, SSDP.__init__ g h n u d = Raise e /\
             start_ssdp g h n u d w = (w, Raise e)) \/
  (exists o, SSDP.__init__ g h n u d = Ok o /\
     start_ssdp g h n u d w =
       (World (heap w ++ [SSDP.set_thread (Thread.Running Thread.LoopTest) o])
              (Some (length (heap w))) (sent w) (caller w), Ok tt)).
Proof.
  unfold start_ssdp.
  destruct (SSDP.__init__ g h n u d) as [o|e] eqn:E; [right | left; eauto].
  exists o. split; [reflexivity|].
  apply init_inv in E as (hn & _ & _ & _ & _ & _ & _ & _ & _ & _ & _ & Et).
  unfold SSDP.start. rewrite Et. unfold Thread.start, bind, set_heap.
  cbn [heap __SSDP sent caller]. now rewrite insert_snoc.
Qed.

Lemma stop_ssdp_cases w :
  (stop_ssdp w = (w, Ok Returned) /\
   forall o, tracked w = Some o -> Thread.is_alive (SSDP.thread o) = false) \/
  (exists r o, __SSDP w = Some r /\ heap w !! r = Some o /\
     Thread.is_alive (SSDP.thread o) = true /\
     stop_ssdp w = (set_heap (<[r:=SSDP.stop o]> (heap w)) w,
                    Ok (Waiting r))).
Proof.
  unfold stop_ssdp, tracked.
  destruct (__SSDP w) as [r|]; [|left; split; [reflexivity | discriminate]].
  destruct (heap w !! r) as [o|] eqn:E;
    [|left; split; [reflexivity | discriminate]].
  destruct (Thread.is_alive (SSDP.thread o)) eqn:A.
  - right. exists r, o. repeat split; auto.
    destruct (SSDP.thread o) as [|p|] eqn:T; try discriminate.
    unfold SSDP.stop, SSDP.set_stop. cbn [SSDP.thread]. rewrite T.
    reflexivity.
  - left. split; [reflexivity|]. intros o' [= <-]. exact A.
Qed.

Lemma insert_lookup_evolves (h : list SSDP.t) r0 o0 o0' r o :
  h !! r0 = Some o0 -> Spec.evolves o0 o0' -> h !! r = Some o ->
  exists o', <[r0:=o0']> h !! r = Some o' /\ Spec.evolves o o'.
Proof.
  intros H0 Hev Hr. destruct (Nat.eq_dec r0 r) as [<-|Hne].
  - rewrite list_lookup_insert_eq by (eapply lookup_lt_Some; eauto).
    exists o0'. split; auto. congruence.
  - rewrite list_lookup_insert_ne by auto.
    exists o. split; auto using evolves_refl.
Qed.

(** The object behind a reference is still there after a step, and it has
    only evolved. *)
Lemma step_lookup e w w' r o :
  step e w = Some w' -> heap w !! r = Some o ->
  exists o', heap w' !! r = Some o' /\ Spec.evolves o o'.
Proof.
  intros Hs Hr.
  assert (Hsame : exists o', heap w !! r = Some o' /\ Spec.evolves o o')
    by (eauto using evolves_refl).
  destruct e as [g h n u d|r0|r0|g h n u d| | |r0 io]; cbn [step] in Hs.
  - destruct (is_ready w); [|discriminate].
    destruct (SSDP.__init__ g h n u d); injection Hs as <-; auto.
    exists o. split; [|apply evolves_refl].
    cbn [set_heap heap]. now apply lookup_app_l_Some.
  - destruct (is_ready w); [|discriminate].
    destruct (heap w !! r0) as [o0|] eqn:E0; [|discriminate].
    destruct (SSDP.start o0) as [o0'|] eqn:Es; injection Hs as <-; auto.
    cbn [set_heap heap]. eauto using insert_lookup_evolves, evolves_start.
  - destruct (is_ready w); [|discriminate].
    destruct (heap w !! r0) as [o0|] eqn:E0; [|discriminate].
    injection Hs as <-.
    cbn [set_heap heap]. eauto using insert_lookup_evolves, evolves_stop.
  - destruct (is_ready w); [|discriminate]. injection Hs as <-.
    destruct (start_ssdp_cases g h n u d w) as [(e & _ & E)|(o2 & _ & E)];
      rewrite E; cbn [fst heap]; auto.
    exists o. split; [|apply evolves_refl]. now apply lookup_app_l_Some.
  - destruct (is_ready w); [|discriminate].
    destruct (stop_ssdp_cases w) as [[E _]|(r0 & o0 & _ & E0 & _ & E)];
      rewrite E in Hs.
    + injection Hs as <-. auto.
    + injection Hs as <-. cbn [set_caller set_heap heap].
      eauto using insert_lookup_evolves, evolves_stop.
  - destruct (caller w) as [|r0]; [discriminate|].
    destruct (heap w !! r0) as [o0|]; [|discriminate].
    destruct (Thread.join (SSDP.thread o0)) as [[]|]; try discriminate.
    injection Hs as <-. auto.
  - destruct (heap w !! r0) as [o0|] eqn:E0; [|discriminate].
    destruct (SSDP.run_step io o0) as [[o0' ds]|] eqn:Er; [|discriminate].
    injection Hs as <-. cbn [heap].
    eauto using insert_lookup_evolves, evolves_run.
Qed.

Lemma exec_lookup es : forall w w' r o,
  exec es w = Some w' -> heap w !! r = Some o ->
  exists o', heap w' !! r = Some o' /\ Spec.evolves o o'.
Proof.
  induction es as [|e es IH]; intros w w' r o He Hr; cbn [exec] in He.
  - injection He as <-. eauto using evolves_refl.
  - destruct (step e w) as [w1|] eqn:Es; [|discriminate].
    destruct (step_lookup _ _ _ _ _ Es Hr) as (o1 & H1 & Ev1).
    destruct (IH _ _ _ _ He H1) as (o2 & H2 & Ev2).
    eauto using evolves_trans.
Qed.

End Worlds.

(** ** The run-state flag and the computed fields *)

Section Flag.
Import Py.

Lemma init_flag g h n u d :
  match SSDP.__init__ g h n u d with
  | Ok o => SSDP.__stop o = false /\ SSDP.thread o = Thread.Initial
  | Raise _ => True
  end.
Proof.
  destruct (SSDP.__init__ g h n u d) as [o|] eqn:E; [|exact I].
  apply init_inv in E as (hn & _ & _ & _ & _ & _ & _ & _ & _ & _ & Ef & Et).
  auto.
Qed.

Lemma insert_lookup_flag (h : list SSDP.t) r0 o0 o0' r o o' :
  h !! r0 = Some o0 -> SSDP.__stop o0' = SSDP.__stop o0 ->
  h !! r = Some o -> <[r0:=o0']> h !! r = Some o' ->
  SSDP.__stop o' = SSDP.__stop o.
Proof.
  intros H0 Hf Hr Hr'. destruct (Nat.eq_dec r0 r) as [<-|Hne].
  - rewrite list_lookup_insert_eq in Hr' by (eapply lookup_lt_Some; eauto).
    congruence.
  - rewrite list_lookup_insert_ne in Hr' by auto. congruence.
Qed.

Lemma insert_lookup_stop (h : list SSDP.t) r0 o0' r o o' :
  r0 <> r -> h !! r = Some o -> <[r0:=o0']> h !! r = Some o' ->
  SSDP.__stop o' = SSDP.__stop o.
Proof.
  intros Hne Hr Hr'. rewrite list_lookup_insert_ne in Hr' by auto. congruence.
Qed.

(** Only the two stop operations write the flag of an instance. *)
Lemma step_flag e w w' r o o' :
  step e w = Some w' -> heap w !! r = Some o -> heap w' !! r = Some o' ->
  SSDP.__stop o' <> SSDP.__stop o ->
  e = CallStop r \/ (e = CallStopSsdp /\ __SSDP w = Some r).
Proof.
  intros Hs Hr Hr' Hne.
  destruct e as [g h n u d|r0|r0|g h n u d| | |r0 io]; cbn [step] in Hs.
  - exfalso. destruct (is_ready w); [|discriminate].
    destruct (SSDP.__init__ g h n u d); injection Hs as <-;
      cbn [set_heap heap] in Hr'; [|congruence].
    rewrite (lookup_app_l_Some _ _ _ _ Hr) in Hr'. congruence.
  - exfalso. destruct (is_ready w); [|discriminate].
    destruct (heap w !! r0) as [o0|] eqn:E0; [|discriminate].
    destruct (SSDP.start o0) as [o0'|] eqn:Es; injection Hs as <-;
      [|congruence].
    apply start_inv in Es as [_ ->]. cbn [set_heap heap] in Hr'.
    apply Hne.
    refine (insert_lookup_flag (heap w) r0 o0 _ r o o' E0 _ Hr Hr').
    reflexivity.
  - destruct (is_ready w); [|discriminate].
    destruct (heap w !! r0) as [o0|] eqn:E0; [|discriminate].
    injection Hs as <-. cbn [set_heap heap] in Hr'.
    destruct (Nat.eq_dec r0 r) as [->|Hd]; [now left|].
    exfalso. apply Hne.
    exact (insert_lookup_stop (heap w) r0 _ r o o' Hd Hr Hr').
  - exfalso. destruct (is_ready w); [|discriminate]. injection Hs as <-.
    destruct (start_ssdp_cases g h n u d w) as [(e & _ & E)|(o2 & _ & E)];
      rewrite E in Hr'; cbn [fst heap] in Hr'; [congruence|].
    rewrite (lookup_app_l_Some _ _ _ _ Hr) in Hr'. congruence.
  - destruct (is_ready w); [|discriminate].
    destruct (stop_ssdp_cases w) as [[E _]|(r0 & o0 & Eg & E0 & _ & E)];
      rewrite E in Hs; injection Hs as <-.
    + exfalso. congruence.
    + cbn [set_caller set_heap heap] in Hr'.
      destruct (Nat.eq_dec r0 r) as [->|Hd]; [now right|].
      exfalso. apply Hne.
    exact (insert_lookup_stop (heap w) r0 _ r o o' Hd Hr Hr').
  - exfalso. destruct (caller w) as [|r0]; [discriminate|].
    destruct (heap w !! r0) as [o0|]; [|discriminate].
    destruct (Thread.join (SSDP.thread o0)) as [[]|]; try discriminate.
    injection Hs as <-. cbn [set_caller heap] in Hr'. congruence.
  - exfalso. destruct (heap w !! r0) as [o0|] eqn:E0; [|discriminate].
    destruct (SSDP.run_step io o0) as [[o0' ds]|] eqn:Er; [|discriminate].
    injection Hs as <-. cbn [heap] in Hr'.
    apply run_step_inv in Er as (p & st & _ & ->).
    apply Hne.
    refine (insert_lookup_flag (heap w) r0 o0 _ r o o' E0 _ Hr Hr').
    reflexivity.
Qed.

End Flag.

(** ** Claims on the flag, the fields and the wrappers *)

Section Claims_state.
Import Py.

(** C6: the run-state flag is false at construction; a step of the system
    leaves every computed field of every instance as it was, never takes a
    set flag back to false, and changes the flag of an instance only when
    the step is a stop of that instance ([stop()] on it, or [stop_ssdp]
    while it is the tracked one). *)
Theorem flag_one_way_fields_frozen (e : event) (w w' : world) (r : nat)
    (o : SSDP.t)
    (Hstep : step e w = Some w') (Hobj : heap w !! r = Some o) :
  (forall g h n u d,
      match SSDP.__init__ g h n u d with
      | Ok o0 => SSDP.__stop o0 = false
      | Raise _ => True
      end) /\
  exists o', heap w' !! r = Some o' /\
    frozen o' = frozen o /\
    (SSDP.__stop o = true -> SSDP.__stop o' = true) /\
    (SSDP.__stop o' <> SSDP.__stop o ->
       SSDP.__stop o = false /\ SSDP.__stop o' = true /\
       (e = CallStop r \/ (e = CallStopSsdp /\ __SSDP w = Some r))).
Proof.
  split.
  - intros g h n u d. pose proof (init_flag g h n u d) as H.
    destruct (SSDP.__init__ g h n u d); [apply H | exact I].
  - destruct (step_lookup _ _ _ _ _ Hstep Hobj) as (o' & Ho' & Hf & Hs & _).
    exists o'. split; [exact Ho'|]. split; [exact Hf|]. split; [exact Hs|].
    intros Hd. split; [|split].
    + destruct (SSDP.__stop o), (SSDP.__stop o'); try congruence.
      specialize (Hs eq_refl). discriminate.
    + destruct (SSDP.__stop o), (SSDP.__stop o'); try congruence.
      specialize (Hs eq_refl). discriminate.
    + eapply step_flag; eauto.
Qed.

Lemma flag_one_way_fields_frozen_witness :
  step CallStopSsdp Sample.started =
    Some (World [SSDP.stop Sample.instance] (Some 0%nat) [] (InJoin 0)) /\
  heap Sample.started !! 0%nat = Some Sample.instance /\
  exists o', [SSDP.stop Sample.instance] !! 0%nat = Some o' /\
    frozen o' = frozen Sample.instance /\
    SSDP.__stop Sample.instance = false /\ SSDP.__stop o' = true.
Proof.
  assert (Hs : step CallStopSsdp Sample.started =
    Some (World [SSDP.stop Sample.instance] (Some 0%nat) [] (InJoin 0)))
    by (vm_compute; reflexivity).
  assert (Ho : heap Sample.started !! 0%nat = Some Sample.instance)
    by (vm_compute; reflexivity).
  split; [exact Hs|]. split; [exact Ho|].
  destruct (flag_one_way_fields_frozen _ _ _ _ _ Hs Ho)
    as (_ & o' & Ho' & Hf & _ & Hc).
  exists o'. split; [exact Ho'|]. split; [exact Hf|].
  change (Some (SSDP.stop Sample.instance) = Some o') in Ho'.
  injection Ho' as <-.
  split; vm_compute; reflexivity.
Defined.

Lemma step_global_none e w w' :
  is_start_ssdp e = false -> step e w = Some w' ->
  __SSDP w = None -> __SSDP w' = None.
Proof.
  intros He Hs Hg.
  destruct e as [g h n u d|r0|r0|g h n u d| | |r0 io]; try discriminate;
    cbn [step] in Hs.
  - destruct (is_ready w); [|discriminate].
    destruct (SSDP.__init__ g h n u d); injection Hs as <-; auto.
  - destruct (is_ready w); [|discriminate].
    destruct (heap w !! r0); [|discriminate].
    destruct (SSDP.start t); injection Hs as <-; auto.
  - destruct (is_ready w); [|discriminate].
    destruct (heap w !! r0); [|discriminate]. injection Hs as <-; auto.
  - destruct (is_ready w); [|discriminate].
    unfold stop_ssdp in Hs. rewrite Hg in Hs. injection Hs as <-; auto.
  - destruct (caller w); [discriminate|].
    destruct (heap w !! r); [|discriminate].
    destruct (Thread.join (SSDP.thread t)) as [[]|]; try discriminate.
    injection Hs as <-; auto.
  - destruct (heap w !! r0); [|discriminate].
    destruct (SSDP.run_step io t) as [[]|]; [|discriminate].
    injection Hs as <-; auto.
Qed.

Lemma exec_global_none es : forall w w',
  forallb (fun e => negb (is_start_ssdp e)) es = true ->
  exec es w = Some w' -> __SSDP w = None -> __SSDP w' = None.
Proof.
  induction es as [|e es IH]; intros w w' Hn He Hg; cbn [exec] in He.
  - now injection He as <-.
  - cbn [forallb] in Hn. apply andb_prop in Hn as [Hn1 Hn2].
    destruct (step e w) as [w1|] eqn:Es; [|discriminate].
    apply (IH w1 w' Hn2 He).
    eapply step_global_none; eauto. now destruct (is_start_ssdp e).
Qed.

(** C7: in every world reached without a call of [start_ssdp] the module
    global is still unset; there [server_ssdp_xml] returns the empty string
    and [stop_ssdp] returns normally and changes nothing. *)
Theorem wrappers_before_any_start (es : list event) (w : world)
    (Hnostart : forallb (fun e => negb (is_start_ssdp e)) es = true)
    (Hexec : exec es initial = Some w) :
  __SSDP w = None /\
  server_ssdp_xml w = VStr [] /\
  stop_ssdp w = (w, Ok Returned).
Proof.
  assert (Hg : __SSDP w = None)
    by (eapply exec_global_none; eauto; reflexivity).
  split; [exact Hg|].
  unfold server_ssdp_xml, tracked, stop_ssdp. rewrite Hg. auto.
Qed.

Lemma wrappers_before_any_start_witness :
  let es := [CallNew (Ok Sample.hostname) Sample.host Sample.server_name
                     Sample.url Sample.description; CallStart 0] in
  let w := World [Sample.instance] None [] Ready in
  forallb (fun e => negb (is_start_ssdp e)) es = true /\
  exec es initial = Some w /\
  server_ssdp_xml w = VStr [] /\ stop_ssdp w = (w, Ok Returned).
Proof.
  intros es w.
  assert (Hn : forallb (fun e => negb (is_start_ssdp e)) es = true)
    by reflexivity.
  assert (He : exec es initial = Some w) by (vm_compute; reflexivity).
  split; [exact Hn|]. split; [exact He|].
  exact (proj2 (wrappers_before_any_start es w Hn He)).
Defined.

(** C8: a call of [start_ssdp] that succeeds while an instance is tracked
    binds the global to a fresh instance, started and with its flag false;
    the instance tracked before is left exactly as it was (flag, thread and
    every computed field), so nothing stops it. *)
Theorem second_start_replaces_tracking g h n u d (w w' : world) (r1 : nat)
    (o1 : SSDP.t)
    (Htracked : __SSDP w = Some r1) (Hobj : heap w !! r1 = Some o1)
    (Hcall : start_ssdp g h n u d w = (w', Ok tt)) :
  exists r2 o2,
    __SSDP w' = Some r2 /\ r2 <> r1 /\
    heap w' !! r2 = Some o2 /\
    SSDP.__init__ g h n u d = Ok (SSDP.set_thread Thread.Initial o2) /\
    SSDP.__stop o2 = false /\
    SSDP.thread o2 = Thread.Running Thread.LoopTest /\
    heap w' !! r1 = Some o1 /\
    sent w' = sent w.
Proof.
  destruct (start_ssdp_cases g h n u d w) as [(e & _ & E)|(o & Ei & E)];
    rewrite E in Hcall; [discriminate|].
  injection Hcall as <-. cbn [__SSDP heap sent].
  pose proof (lookup_lt_Some _ _ _ Hobj) as Hlt.
  exists (length (heap w)),
         (SSDP.set_thread (Thread.Running Thread.LoopTest) o).
  pose proof (init_inv _ _ _ _ _ _ Ei)
    as (hn & _ & _ & _ & _ & _ & _ & _ & _ & _ & Ef & Et).
  repeat split; auto.
  - lia.
  - rewrite lookup_app_r by lia. now rewrite Nat.sub_diag.
  - rewrite Ei. f_equal. destruct o. cbn in Et |- *. now subst.
  - now apply lookup_app_l_Some.
Qed.

Lemma second_start_replaces_tracking_witness :
  __SSDP Sample.started = Some 0%nat /\
  heap Sample.started !! 0%nat = Some Sample.instance /\
  exists w', start_ssdp (Ok Sample.hostname) Sample.host Sample.server_name
               Sample.url Sample.description Sample.started = (w', Ok tt) /\
    __SSDP w' = Some 1%nat /\
    heap w' !! 0%nat = Some Sample.instance /\
    SSDP.__stop Sample.instance = false.
Proof.
  assert (Hg : __SSDP Sample.started = Some 0%nat) by (vm_compute; reflexivity).
  assert (Ho : heap Sample.started !! 0%nat = Some Sample.instance)
    by (vm_compute; reflexivity).
  split; [exact Hg|]. split; [exact Ho|].
  eexists. 
  assert (Hc : start_ssdp (Ok Sample.hostname) Sample.host Sample.server_name
               Sample.url Sample.description Sample.started =
               (World [Sample.instance; Sample.instance] (Some 1%nat) [] Ready,
                Ok tt)) by (vm_compute; reflexivity).
  split; [exact Hc|].
  destruct (second_start_replaces_tracking _ _ _ _ _ _ _ _ _ Hg Ho Hc)
    as (r2 & o2 & Hg' & _ & _ & _ & _ & _ & Ho1 & _).
  split; [reflexivity|]. split; [exact Ho1|]. vm_compute; reflexivity.
Defined.

(** C9: two constructions that differ only in [server_name] and
    [description] end the same way, and when they succeed their broadcast
    message and their description.xml are the same. *)
Theorem payloads_ignore_name_and_description
    g (host url n1 d1 n2 d2 : str) :
  Spec.payloads (SSDP.__init__ g host n1 url d1) =
  Spec.payloads (SSDP.__init__ g host n2 url d2).
Proof.
  unfold SSDP.__init__, Spec.payloads.
  destruct g as [hn|e]; [|reflexivity]. cbn [bind].
  destruct (UUID.uuid3 UUID.NAMESPACE_DNS (hn ++ host)) as [id|e];
    [|reflexivity].
  cbn [bind].
  destruct (utf8 (replace_lf_crlf (SSDP.broadcast_text url (UUID.to_str id))))
    as [bs|e]; reflexivity.
Qed.

End Claims_state.

(** ** The background thread and [join()] *)

Section Join.
Import Py.





Lemma step_caller_blocked e w w' r :
  caller w = InJoin r -> step e w = Some w' ->
  caller w' = InJoin r \/
  (e = JoinDone /\ exists o, heap w !! r = Some o /\
                             SSDP.thread o = Thread.Terminated).
Proof.
  intros Hc Hs.
  assert (Hnr : is_ready w = false) by (unfold is_ready; now rewrite Hc).
  destruct e as [g h n u d|r0|r0|g h n u d| | |r0 io]; cbn [step] in Hs;
    rewrite ?Hnr in Hs; try discriminate.
  - right. split; [reflexivity|]. rewrite Hc in Hs.
    destruct (heap w !! r) as [o|]; [|discriminate]. exists o.
    destruct (SSDP.thread o); try discriminate. auto.
  - left. destruct (heap w !! r0) as [o0|]; [|discriminate].
    destruct (SSDP.run_step io o0) as [[o0' ds]|]; [|discriminate].
    injection Hs as <-. exact Hc.
Qed.

Lemma step_joined e w w' r :
  step e w = Some w' -> Spec.joined r w -> Spec.joined r w'.
Proof.
  intros Hs (o & Hr & Hf & Hd).
  destruct (step_lookup _ _ _ _ _ Hs Hr) as (o' & Hr' & _ & Hf' & Ht').
  exists o'. split; [exact Hr'|]. split; [auto|].
  destruct Hd as [Hd|Hd]; [left; auto|].
  destruct (step_caller_blocked _ _ _ _ Hd Hs) as [Hc|(_ & o2 & Hr2 & Ht2)];
    [right; exact Hc|].
  left. apply Ht'. congruence.
Qed.

Lemma exec_joined es : forall w w' r,
  exec es w = Some w' -> Spec.joined r w -> Spec.joined r w'.
Proof.
  induction es as [|e es IH]; intros w w' r He Hj; cbn [exec] in He.
  - now injection He as <-.
  - destruct (step e w) as [w1|] eqn:Es; [|discriminate].
    eauto using step_joined.
Qed.



End Join.

(** ** Every instance of a reachable world was built by [__init__] *)

Section Built.
Import Py.

Lemma built_init g h n u d o : SSDP.__init__ g h n u d = Ok o -> Spec.built o.
Proof. intros H. exists g, h, n, u, d, o. auto using evolves_refl. Qed.

Lemma built_evolves o o' : Spec.built o -> Spec.evolves o o' -> Spec.built o'.
Proof.
  intros (g & h & n & u & d & o0 & Hi & He) He'.
  exists g, h, n, u, d, o0. eauto using evolves_trans.
Qed.

Lemma lookup_snoc_new (h : list SSDP.t) x r o :
  (h ++ [x]) !! r = Some o -> (length h <= r)%nat -> o = x.
Proof.
  intros H Hl. rewrite lookup_app_r in H by lia.
  destruct (r - length h)%nat as [|k]; [cbn in H; congruence|].
  change ((@nil SSDP.t) !! k = Some o) in H.
  rewrite lookup_nil in H. discriminate.
Qed.

Lemma lookup_insert_old (h : list SSDP.t) r0 x r o :
  <[r0:=x]> h !! r = Some o -> (length h <= r)%nat -> False.
Proof.
  intros H Hl. apply lookup_lt_Some in H. rewrite length_insert in H. lia.
Qed.

Lemma step_new_object e w w' r o' :
  step e w = Some w' -> heap w' !! r = Some o' ->
  (length (heap w) <= r)%nat -> Spec.built o'.
Proof.
  intros Hs Hr' Hl.
  assert (Hold : heap w !! r = Some o' -> Spec.built o')
    by (intros H; apply lookup_lt_Some in H; lia).
  destruct e as [g h n u d|r0|r0|g h n u d| | |r0 io]; cbn [step] in Hs.
  - destruct (is_ready w); [|discriminate].
    destruct (SSDP.__init__ g h n u d) as [o|] eqn:Ei; injection Hs as <-;
      auto.
    cbn [set_heap heap] in Hr'.
    rewrite (lookup_snoc_new _ _ _ _ Hr' Hl). eauto using built_init.
  - destruct (is_ready w); [|discriminate].
    destruct (heap w !! r0) as [o0|]; [|discriminate].
    destruct (SSDP.start o0); injection Hs as <-; auto.
    cbn [set_heap heap] in Hr'. now apply lookup_insert_old in Hr'.
  - destruct (is_ready w); [|discriminate].
    destruct (heap w !! r0) as [o0|]; [|discriminate]. injection Hs as <-.
    cbn [set_heap heap] in Hr'. now apply lookup_insert_old in Hr'.
  - destruct (is_ready w); [|discriminate]. injection Hs as <-.
    destruct (start_ssdp_cases g h n u d w) as [(e & _ & E)|(o & Ei & E)];
      rewrite E in Hr'; cbn [fst heap] in Hr'; auto.
    rewrite (lookup_snoc_new _ _ _ _ Hr' Hl).
    apply (built_evolves o); [eauto using built_init|].
    unfold Spec.evolves. cbn. repeat split; auto.
    apply init_inv in Ei as (hn & _ & _ & _ & _ & _ & _ & _ & _ & _ & _ & Et).
    congruence.
  - destruct (is_ready w); [|discriminate].
    destruct (stop_ssdp_cases w) as [[E _]|(r0 & o0 & _ & _ & _ & E)];
      rewrite E in Hs; injection Hs as <-; auto.
    cbn [set_caller set_heap heap] in Hr'. now apply lookup_insert_old in Hr'.
  - destruct (caller w) as [|r1]; [discriminate|].
    destruct (heap w !! r1) as [o1|]; [|discriminate].
    destruct (Thread.join (SSDP.thread o1)) as [[]|]; try discriminate.
    injection Hs as <-. auto.
  - destruct (heap w !! r0) as [o0|]; [|discriminate].
    destruct (SSDP.run_step io o0) as [[o0' ds]|]; [|discriminate].
    injection Hs as <-. cbn [heap] in Hr'. now apply lookup_insert_old in Hr'.
Qed.

Lemma step_built e w w' :
  step e w = Some w' ->
  (forall r o, heap w !! r = Some o -> Spec.built o) ->
  forall r o', heap w' !! r = Some o' -> Spec.built o'.
Proof.
  intros Hs Hall r o' Hr'.
  destruct (le_lt_dec (length (heap w)) r) as [Hl|Hl].
  - eapply step_new_object; eauto.
  - destruct (lookup_lt_is_Some_2 _ _ Hl) as [o Hr].
    destruct (step_lookup _ _ _ _ _ Hs Hr) as (o2 & Hr2 & Hev).
    assert (o2 = o') by congruence. subst o2.
    eauto using built_evolves.
Qed.

Lemma exec_built es : forall w w',
  exec es w = Some w' ->
  (forall r o, heap w !! r = Some o -> Spec.built o) ->
  forall r o', heap w' !! r = Some o' -> Spec.built o'.
Proof.
  induction es as [|e es IH]; intros w w' He Hall; cbn [exec] in He.
  - now injection He as <-.
  - destruct (step e w) as [w1|] eqn:Es; [|discriminate].
    eapply IH; eauto using step_built.
Qed.

Lemma reachable_built w r o :
  reachable w -> heap w !! r = Some o -> Spec.built o.
Proof.
  intros [es He]. eapply exec_built; eauto.
  intros r0 o0 H. destruct r0; discriminate.
Qed.

(** description.xml is never empty: it opens with the XML declaration. *)
Lemma xml_text_nonempty u hn id : SSDP.xml_text u hn id <> [].
Proof. unfold SSDP.xml_text. discriminate. Qed.

Lemma built_xml_nonempty o : Spec.built o -> SSDP.__myxml o <> [].
Proof.
  intros (g & h & n & u & d & o0 & Hi & Hf & _).
  apply init_inv in Hi as (hn & _ & _ & _ & Hx & _).
  unfold frozen in Hf. injection Hf as _ _ _ _ _ _ _ Hxml.
  rewrite Hxml, Hx. apply xml_text_nonempty.
Qed.

End Built.

(** ** Claims on [serve_xml], [stop] and the two empty results *)

Section Claims_serve.
Import Py.

(** C2 (a defect of the code): [serve_xml] is documented to return nothing
    if the service is not running, and the claim has it return empty before
    [start()].  At the instance that was constructed and never started, the
    thread is not alive and [serve_xml] all the same returns the whole
    document, which is not empty; the guard of the sibling
    [server_ssdp_xml], put before the same instance, gives the empty
    string. *)
Theorem serve_xml_before_start_returns_document :
  Sample.construct = Ok Sample.fresh /\
  SSDP.thread Sample.fresh = Thread.Initial /\
  Thread.is_alive (SSDP.thread Sample.fresh) = false /\
  SSDP.serve_xml Sample.fresh = VStr (SSDP.__myxml Sample.fresh) /\
  SSDP.__myxml Sample.fresh <> [] /\
  SSDP.serve_xml Sample.fresh <> VNone /\
  server_ssdp_xml (World [Sample.fresh] (Some 0%nat) [] Ready) = VStr [].
Proof.
  split; [vm_compute; reflexivity|]. split; [vm_compute; reflexivity|].
  split; [vm_compute; reflexivity|]. split; [vm_compute; reflexivity|].
  split; [vm_compute; discriminate|]. split; [vm_compute; discriminate|].
  vm_compute; reflexivity.
Qed.

(** [serve_xml] is decided by the flag alone: for an instance [o] of a
    reachable world and the same instance [o'] after any further execution,
    it returns [None] if the flag of [o'] is set and the document of [o],
    which is not empty, otherwise; after [stop] it returns [None]. *)
Lemma serve_xml_by_flag
    (w w' : world) (es : list event) (r : nat) (o o' : SSDP.t) :
  reachable w -> heap w !! r = Some o ->
  exec es w = Some w' -> heap w' !! r = Some o' ->
  SSDP.serve_xml o' =
    (if SSDP.__stop o' then VNone else VStr (SSDP.__myxml o)) /\
  SSDP.__myxml o <> [] /\
  SSDP.serve_xml (SSDP.stop o') = VNone.
Proof.
  intros Hreach Hobj Hexec Hobj'.
  destruct (exec_lookup _ _ _ _ _ Hexec Hobj) as (o2 & Hr2 & Hf & _).
  assert (o2 = o') by congruence. subst o2.
  assert (Hx : SSDP.__myxml o' = SSDP.__myxml o)
    by (unfold frozen in Hf; congruence).
  split; [unfold SSDP.serve_xml; now rewrite Hx|].
  split; [eapply built_xml_nonempty, reachable_built; eauto | reflexivity].
Qed.




Lemma server_ssdp_xml_forwards w o :
  tracked w = Some o -> Thread.is_alive (SSDP.thread o) = true ->
  server_ssdp_xml w = SSDP.serve_xml o.
Proof. intros Ht Ha. unfold server_ssdp_xml. now rewrite Ht, Ha. Qed.

(** C10: [serve_xml] on an instance whose flag is set returns [None];
    [server_ssdp_xml] with no live tracked instance returns the empty
    string; the two are different values; with a live tracked instance
    [server_ssdp_xml] returns what [serve_xml] returns, and a world is
    reachable in which the tracked thread is alive, its flag is set and
    [server_ssdp_xml] returns [None]. *)
Theorem empty_results_differ (self : SSDP.t) (w : world)
    (Hflag : SSDP.__stop self = true)
    (Hidle : tracked_alive w = false) :
  SSDP.serve_xml self = VNone /\
  server_ssdp_xml w = VStr [] /\
  VNone <> VStr [] /\
  (forall w2 o2, tracked w2 = Some o2 ->
     Thread.is_alive (SSDP.thread o2) = true ->
     server_ssdp_xml w2 = SSDP.serve_xml o2) /\
  exists es w2 o2,
    exec es initial = Some w2 /\ tracked w2 = Some o2 /\
    SSDP.__stop o2 = true /\ Thread.is_alive (SSDP.thread o2) = true /\
    server_ssdp_xml w2 = VNone.
Proof.
  split; [unfold SSDP.serve_xml; now rewrite Hflag|].
  split.
  { unfold server_ssdp_xml. unfold tracked_alive in Hidle.
    destruct (tracked w) as [o|]; [now rewrite Hidle | reflexivity]. }
  split; [discriminate|]. split; [exact server_ssdp_xml_forwards|].
  exists [Sample.start_call; CallStopSsdp],
         (World [SSDP.stop Sample.instance] (Some 0%nat) [] (InJoin 0)),
         (SSDP.stop Sample.instance).
  repeat split; vm_compute; reflexivity.
Qed.

Lemma empty_results_differ_witness :
  SSDP.__stop (SSDP.stop Sample.fresh) = true /\
  tracked_alive initial = false /\
  SSDP.serve_xml (SSDP.stop Sample.fresh) = VNone /\
  server_ssdp_xml initial = VStr [].
Proof.
  assert (H1 : SSDP.__stop (SSDP.stop Sample.fresh) = true) by reflexivity.
  assert (H2 : tracked_alive initial = false) by reflexivity.
  destruct (empty_results_differ _ _ H1 H2) as (Ha & Hb & _).
  auto.
Defined.

End Claims_serve.

(** ** Line ends of the broadcast message *)

Section CRLF.
Import Py.

Lemma lor_bit7 a x : Z.testbit a 7 = true -> Z.lor a x <> LF.
Proof.
  intros Ha H. apply (f_equal (fun z => Z.testbit z 7)) in H.
  rewrite Z.lor_spec, Ha in H. discriminate.
Qed.

(** Only the code point 10 produces an octet 10. *)
Lemma utf8_char_no_lf c bs :
  utf8_char c = Some bs -> c <> LF -> Forall (fun b => b <> LF) bs.
Proof.
  unfold utf8_char. intros H Hc.
  destruct (c <? 0); [discriminate|].
  destruct (c <? 128); [injection H as <-; auto|].
  destruct (c <? 2048);
    [injection H as <-; repeat constructor; now apply lor_bit7|].
  destruct (c <? 65536).
  { destruct ((55296 <=? c) && (c <=? 57343)); [discriminate|].
    injection H as <-; repeat constructor; now apply lor_bit7. }
  destruct (c <? 1114112); [|discriminate].
  injection H as <-; repeat constructor; now apply lor_bit7.
Qed.

Lemma lf_after_cr_no_lf_app e r : forall prev,
  Forall (fun b => b <> LF) e ->
  (forall p, Spec.lf_after_cr p r = true) ->
  Spec.lf_after_cr prev (e ++ r) = true.
Proof.
  induction e as [|b e IH]; intros prev H Hr; cbn [app Spec.lf_after_cr];
    auto.
  inversion H as [|? ? Hb Hbs]; subst.
  apply Z.eqb_neq in Hb. rewrite Hb. cbn [negb orb andb]. auto.
Qed.

Lemma utf8_cons c t bs :
  utf8 (c :: t) = Ok bs ->
  exists e r, utf8_char c = Some e /\ utf8 t = Ok r /\ bs = e ++ r.
Proof.
  cbn [utf8]. destruct (utf8_char c) as [e|]; [|discriminate].
  destruct (utf8 t) as [r|]; [|discriminate].
  intros [= <-]. eauto.
Qed.

(** After [replace("\n", "\r\n")] and encoding, every octet 10 follows an
    octet 13, whatever came before the text. *)
Lemma utf8_replace_lf_after_cr s : forall bs prev,
  utf8 (replace_lf_crlf s) = Ok bs -> Spec.lf_after_cr prev bs = true.
Proof.
  induction s as [|c t IH]; intros bs prev H; cbn [replace_lf_crlf] in H.
  - injection H as <-. reflexivity.
  - destruct (c =? LF) eqn:Ec.
    + apply utf8_cons in H as (e1 & r1 & He1 & Hr1 & ->).
      apply utf8_cons in Hr1 as (e2 & r2 & He2 & Hr2 & ->).
      injection He1 as <-. injection He2 as <-.
      cbn [app Spec.lf_after_cr]. rewrite (IH _ _ Hr2). reflexivity.
    + apply utf8_cons in H as (e & r & He & Hr & ->).
      apply Z.eqb_neq in Ec.
      apply lf_after_cr_no_lf_app; eauto using utf8_char_no_lf.
Qed.

Lemma lf_after_cr_split pre : forall bs prev post,
  Spec.lf_after_cr prev bs = true -> bs = pre ++ LF :: post ->
  (pre = [] /\ prev = CR) \/ exists pre', pre = pre' ++ [CR].
Proof.
  induction pre as [|a pre IH]; intros bs prev post H ->.
  - left. split; [reflexivity|]. cbn in H.
    apply andb_prop in H as [H _]. now apply Z.eqb_eq in H.
  - right. cbn [app Spec.lf_after_cr] in H. apply andb_prop in H as [_ H].
    destruct (IH _ _ _ H eq_refl) as [[-> ->]|[pre' ->]].
    + now exists [].
    + now exists (a :: pre').
Qed.

(** C4: in the broadcast message of any constructed instance, an octet 10
    is never the first octet and always directly follows an octet 13. *)
Theorem broadcast_lf_follows_cr g h n u d (o : SSDP.t) (pre post : bytes)
    (Hinit : SSDP.__init__ g h n u d = Ok o)
    (Hsplit : SSDP.__mySSDPbroadcast o = pre ++ LF :: post) :
  exists pre', pre = pre' ++ [CR].
Proof.
  apply init_inv in Hinit as (hn & _ & _ & Hb & _).
  pose proof (utf8_replace_lf_after_cr _ _ 0 Hb) as H.
  destruct (lf_after_cr_split _ _ _ _ H Hsplit) as [[_ E]|Hpre];
    [discriminate | exact Hpre].
Qed.

Lemma broadcast_lf_follows_cr_witness :
  let b := SSDP.__mySSDPbroadcast Sample.fresh in
  Sample.construct = Ok Sample.fresh /\
  b = firstn 18 b ++ LF :: skipn 19 b /\
  exists pre', firstn 18 b = pre' ++ [CR].
Proof.
  intros b.
  assert (H1 : Sample.construct = Ok Sample.fresh) by (vm_compute; reflexivity).
  assert (H2 : b = firstn 18 b ++ LF :: skipn 19 b)
    by (vm_compute; reflexivity).
  split; [exact H1|]. split; [exact H2|].
  exact (broadcast_lf_follows_cr _ _ _ _ _ _ _ _ H1 H2).
Defined.

End CRLF.

(** ** Counting occurrences in text put together from pieces *)

Section Text.
Import Py.

Lemma is_prefix_app_left pat : forall x r,
  x <> [] -> is_prefix x pat && (length x <? length pat)%nat = false ->
  is_prefix pat (x ++ r) = is_prefix pat x.
Proof.
  induction pat as [|a pat IH]; intros x r Hx H; [reflexivity|].
  destruct x as [|c x]; [congruence|]. cbn [app is_prefix] in *.
  destruct (a =? c) eqn:Eac; [|reflexivity]. cbn [andb].
  apply Z.eqb_eq in Eac. subst c. rewrite Z.eqb_refl in H. cbn [andb] in H.
  destruct x as [|c' x'].
  - destruct pat as [|b pat']; [reflexivity|]. cbn in H. discriminate.
  - apply IH; [discriminate|]. exact H.
Qed.

Lemma count_sub_app_left pat a : forall r,
  no_tail_prefix pat a = true ->
  count_sub pat (a ++ r) = (count_sub pat a + count_sub pat r)%nat.
Proof.
  induction a as [|c a IH]; intros r H; [reflexivity|].
  cbn [no_tail_prefix] in H. apply andb_prop in H as [H1 H2].
  apply negb_true_iff in H1.
  change ((c :: a) ++ r) with (c :: (a ++ r)).
  cbn [count_sub].
  change (c :: (a ++ r)) with ((c :: a) ++ r).
  rewrite (is_prefix_app_left pat (c :: a) r) by (auto; discriminate).
  rewrite (IH r H2). lia.
Qed.

Lemma is_prefix_app_right r q : forall x,
  x <> [] ->
  (forall j, (0 < j < length q)%nat -> is_prefix (skipn j q) r = false) ->
  is_prefix q (x ++ r) = is_prefix q x.
Proof.
  induction q as [|a q IH]; intros x Hx H; [reflexivity|].
  destruct x as [|c x]; [congruence|]. cbn [app is_prefix].
  destruct (a =? c); [|reflexivity]. cbn [andb].
  assert (Hq : forall j, (0 < j < length q)%nat ->
                         is_prefix (skipn j q) r = false).
  { intros j Hj. assert (Hj' : (0 < S j < length (a :: q))%nat)
      by (cbn [length]; lia).
    apply H in Hj'. exact Hj'. }
  destruct x as [|c' x'].
  - destruct q as [|b q']; [reflexivity|].
    cbn [app]. assert (H1 : (0 < 1 < length (a :: b :: q'))%nat)
      by (cbn [length]; lia).
    apply H in H1. change (is_prefix (b :: q') r = false) in H1.
    rewrite H1. reflexivity.
  - apply IH; [discriminate | exact Hq].
Qed.

Lemma no_head_suffix_spec pat r :
  no_head_suffix pat r = true ->
  forall j, (0 < j < length pat)%nat -> is_prefix (skipn j pat) r = false.
Proof.
  unfold no_head_suffix. intros H j Hj.
  rewrite forallb_forall in H. apply negb_true_iff, H, in_seq. lia.
Qed.

Lemma count_sub_app_right pat r a :
  no_head_suffix pat r = true ->
  count_sub pat (a ++ r) = (count_sub pat a + count_sub pat r)%nat.
Proof.
  intros H. pose proof (no_head_suffix_spec _ _ H) as Hs.
  induction a as [|c a IH]; [reflexivity|].
  change ((c :: a) ++ r) with (c :: (a ++ r)).
  cbn [count_sub].
  change (c :: (a ++ r)) with ((c :: a) ++ r).
  rewrite (is_prefix_app_right r pat (c :: a)) by (auto; discriminate).
  rewrite IH. lia.
Qed.

(** A text without the first character of the pattern has no occurrence. *)
Lemma count_sub_no_first p0 pat s :
  Forall (fun c => c <> p0) s -> count_sub (p0 :: pat) s = 0%nat.
Proof.
  induction 1 as [|c s Hc Hs IH]; [reflexivity|].
  cbn [count_sub is_prefix]. apply not_eq_sym, Z.eqb_neq in Hc.
  rewrite Hc. exact IH.
Qed.

Lemma is_prefix_short pat : forall s,
  (length s < length pat)%nat -> is_prefix pat s = false.
Proof.
  induction pat as [|a pat IH]; intros s H; [cbn in H; lia|].
  destruct s as [|c s]; [reflexivity|]. cbn [is_prefix].
  rewrite IH by (cbn [length] in H; lia). apply andb_false_r.
Qed.

Lemma count_sub_short pat s :
  (length s < length pat)%nat -> count_sub pat s = 0%nat.
Proof.
  induction s as [|c s IH]; intros H; [reflexivity|].
  cbn [count_sub]. rewrite is_prefix_short by exact H.
  apply IH. cbn [length] in H. lia.
Qed.

Lemma is_prefix_refl_app pat r : is_prefix pat (pat ++ r) = true.
Proof.
  induction pat as [|a pat IH]; [reflexivity|].
  cbn [app is_prefix]. now rewrite Z.eqb_refl, IH.
Qed.

(** A window that lies over a character the pattern never has, matches
    nowhere. *)
Lemma is_prefix_bad_char bad pat : forall b r,
  Forall (fun c => c <> bad) pat -> (length b < length pat)%nat ->
  is_prefix pat (b ++ bad :: r) = false.
Proof.
  induction pat as [|a pat IH]; intros b r Hp Hl; [cbn in Hl; lia|].
  inversion Hp as [|? ? Ha Hpat]; subst.
  destruct b as [|c b]; cbn [app is_prefix].
  - apply Z.eqb_neq in Ha. now rewrite Ha.
  - rewrite IH by (auto; cbn [length] in Hl; lia). apply andb_false_r.
Qed.

Lemma count_sub_bad_char bad pat b : forall r,
  Forall (fun c => c <> bad) pat -> (length b < length pat)%nat ->
  count_sub pat (b ++ bad :: r) = count_sub pat r.
Proof.
  induction b as [|c b IH]; intros r Hp Hl.
  - cbn [app count_sub].
    pose proof (is_prefix_bad_char bad pat [] r Hp Hl) as E.
    cbn [app] in E. rewrite E. reflexivity.
  - change ((c :: b) ++ bad :: r) with (c :: (b ++ bad :: r)).
    cbn [count_sub].
    change (c :: (b ++ bad :: r)) with ((c :: b) ++ bad :: r).
    rewrite (is_prefix_bad_char bad pat (c :: b) r Hp Hl).
    apply IH; [exact Hp | cbn [length] in Hl; lia].
Qed.

Lemma replace_lf_crlf_app a b :
  replace_lf_crlf (a ++ b) = replace_lf_crlf a ++ replace_lf_crlf b.
Proof.
  induction a as [|c a IH]; [reflexivity|].
  cbn [app replace_lf_crlf]. rewrite IH. now destruct (c =? LF).
Qed.

Lemma replace_lf_crlf_id s :
  Forall (fun c => c <> LF) s -> replace_lf_crlf s = s.
Proof.
  induction 1 as [|c s Hc Hs IH]; [reflexivity|].
  cbn [replace_lf_crlf]. apply Z.eqb_neq in Hc. now rewrite Hc, IH.
Qed.

End Text.

(** ** The text of a UUID *)

Section UUID_text.
Import Py.

Lemma hex_digit_hexdash x : 0 <= x < 16 -> Spec.hexdash (UUID.hex_digit x).
Proof.
  intros H. unfold UUID.hex_digit, Spec.hexdash.
  destruct (x <? 10) eqn:E; [apply Z.ltb_lt in E | apply Z.ltb_ge in E]; lia.
Qed.

Lemma hex32_hexdash u : Forall Spec.hexdash (UUID.hex32 u).
Proof.
  unfold UUID.hex32. apply List.Forall_forall. intros c Hc.
  apply in_map_iff in Hc as (k & <- & _).
  apply hex_digit_hexdash. change 15 with (Z.ones 4).
  rewrite Z.land_ones by lia. apply Z.mod_pos_bound. reflexivity.
Qed.

Lemma to_str_hexdash u : Forall Spec.hexdash (UUID.to_str u).
Proof.
  pose proof (hex32_hexdash u) as H. unfold UUID.to_str.
  assert (Hd : Forall Spec.hexdash [UUID.DASH])
    by (constructor; [right; right; reflexivity | constructor]).
  repeat (apply Forall_app; split);
    auto using Forall_take, Forall_drop.
Qed.

Lemma to_str_length u : length (UUID.to_str u) = 36%nat.
Proof. reflexivity. Qed.

Lemma hexdash_not c x :
  Spec.hexdash c -> (x < 45 \/ 45 < x < 48 \/ 57 < x < 97 \/ 102 < x) ->
  c <> x.
Proof. unfold Spec.hexdash. lia. Qed.

Lemma to_str_without u x :
  (x < 45 \/ 45 < x < 48 \/ 57 < x < 97 \/ 102 < x) ->
  Forall (fun c => c <> x) (UUID.to_str u).
Proof.
  intros Hx.
  refine (List.Forall_impl (P := Spec.hexdash) _ _ (to_str_hexdash u)).
  intros c Hc. now apply hexdash_not.
Qed.

(** The Python documentation's example of [uuid3]. *)
Lemma uuid3_python_org :
  bind (UUID.uuid3 UUID.NAMESPACE_DNS (lit "python.org"))
       (fun u => Ok (UUID.to_str u))
  = Ok (lit "6fa459ea-ee8a-3ca4-894e-db77e160355e").
Proof. vm_compute. reflexivity. Qed.

End UUID_text.

(** ** The two payloads *)

Section Payloads.
Import Py.

(** The CRLF conversion of the f-string is the header block of the
    specification, with the conversion applied to the URL as well. *)
Lemma announcement_text u id :
  Forall (fun c => c <> LF) id ->
  replace_lf_crlf (SSDP.broadcast_text u id) =
  Spec.announcement (replace_lf_crlf u) id.
Proof.
  intros Hid. unfold SSDP.broadcast_text.
  rewrite !replace_lf_crlf_app, (replace_lf_crlf_id id Hid).
  generalize (replace_lf_crlf u) as u'. intros u'.
  unfold Spec.announcement, Spec.header_lines, Spec.usn_value, Spec.CRLF.
  cbn [map concat]. rewrite <- !app_assoc.
  vm_compute. reflexivity.
Qed.

Lemma count_in_usn id :
  length id = 36%nat -> Forall (fun c => c <> 58) id ->
  count_sub id (Spec.usn_value id) = 1%nat.
Proof.
  intros Hl Hc. unfold Spec.usn_value.
  change (lit "uuid:" ++ id ++ lit "::upnp:rootdevice")
    with ([117; 117; 105; 100] ++ 58 :: (id ++ 58 :: lit ":upnp:rootdevice")).
  rewrite count_sub_bad_char by (auto; rewrite Hl; cbn [length]; lia).
  destruct id as [|x id']; [discriminate|].
  change ((x :: id') ++ 58 :: lit ":upnp:rootdevice")
    with (x :: (id' ++ 58 :: lit ":upnp:rootdevice")).
  cbn [count_sub].
  change (x :: (id' ++ 58 :: lit ":upnp:rootdevice"))
    with ((x :: id') ++ 58 :: lit ":upnp:rootdevice").
  rewrite is_prefix_refl_app.
  rewrite count_sub_bad_char by (auto; cbn [length] in *; lia).
  rewrite count_sub_short by (rewrite Hl; vm_compute; lia).
  reflexivity.
Qed.

Lemma xml_plain_char_without c x :
  Spec.xml_plain_char c = true ->
  (x < 32 \/ x = 60 \/ x = 62 \/ x = 38) -> c <> x.
Proof.
  unfold Spec.xml_plain_char. intros H Hx.
  repeat (apply andb_prop in H as [H ?]).
  repeat match goal with
         | E : negb (_ =? _) = true |- _ =>
             apply negb_true_iff, Z.eqb_neq in E
         end.
  apply Z.leb_le in H. lia.
Qed.

Lemma xml_plain_without s x :
  Spec.xml_plain s = true ->
  (x < 32 \/ x = 60 \/ x = 62 \/ x = 38) -> Forall (fun c => c <> x) s.
Proof.
  unfold Spec.xml_plain. intros H Hx. apply List.Forall_forall. intros c Hc.
  rewrite forallb_forall in H. eapply xml_plain_char_without; eauto.
Qed.

Lemma xml_plain_app a b :
  Spec.xml_plain (a ++ b) = Spec.xml_plain a && Spec.xml_plain b.
Proof. apply forallb_app. Qed.

Lemma xml_plain_uuid u : Spec.xml_plain (UUID.to_str u) = true.
Proof.
  unfold Spec.xml_plain. apply forallb_forall. intros c Hc.
  pose proof (to_str_hexdash u) as H. rewrite List.Forall_forall in H.
  specialize (H c Hc). unfold Spec.hexdash in H. unfold Spec.xml_plain_char.
  destruct (Z.leb_spec 32 c), (Z.leb_spec c 1114111), (Z.leb_spec 55296 c),
    (Z.leb_spec c 57343), (Z.eqb_spec c 65534), (Z.eqb_spec c 65535),
    (Z.eqb_spec c 60), (Z.eqb_spec c 62), (Z.eqb_spec c 38);
    cbn [andb negb]; try reflexivity; lia.
Qed.

(** Plain text holds no beginning of a tag. *)
Lemma count_tag_in_plain name s :
  Spec.xml_plain s = true -> count_sub (Spec.tag_start name) s = 0%nat.
Proof.
  intros H. unfold Spec.tag_start. apply count_sub_no_first.
  apply xml_plain_without; [exact H | unfold Spec.LT; lia].
Qed.

Ltac split_count :=
  repeat first
    [ rewrite count_sub_app_left by (vm_compute; reflexivity)
    | rewrite count_sub_app_right by (vm_compute; reflexivity) ].

Ltac count_in_xml Hu Hhn Hid :=
  unfold SSDP.xml_text; split_count; rewrite Hu, Hhn, Hid;
  vm_compute; reflexivity.

Section Counts.
Variables u hn id : str.
Hypothesis Hu : Spec.xml_plain u = true.
Hypothesis Hhn : Spec.xml_plain hn = true.
Hypothesis Hid : Spec.xml_plain id = true.

Lemma count_urlbase :
  count_sub (Spec.tag_start (lit "URLBase")) (SSDP.xml_text u hn id) = 1%nat.
Proof.
  pose proof (count_tag_in_plain (lit "URLBase") u Hu) as Cu.
  pose proof (count_tag_in_plain (lit "URLBase") hn Hhn) as Ch.
  pose proof (count_tag_in_plain (lit "URLBase") id Hid) as Ci.
  count_in_xml Cu Ch Ci.
Qed.

Lemma count_friendly_name :
  count_sub (Spec.tag_start (lit "friendlyName")) (SSDP.xml_text u hn id)
  = 1%nat.
Proof.
  pose proof (count_tag_in_plain (lit "friendlyName") u Hu) as Cu.
  pose proof (count_tag_in_plain (lit "friendlyName") hn Hhn) as Ch.
  pose proof (count_tag_in_plain (lit "friendlyName") id Hid) as Ci.
  count_in_xml Cu Ch Ci.
Qed.

Lemma count_udn :
  count_sub (Spec.tag_start (lit "UDN")) (SSDP.xml_text u hn id) = 1%nat.
Proof.
  pose proof (count_tag_in_plain (lit "UDN") u Hu) as Cu.
  pose proof (count_tag_in_plain (lit "UDN") hn Hhn) as Ch.
  pose proof (count_tag_in_plain (lit "UDN") id Hid) as Ci.
  count_in_xml Cu Ch Ci.
Qed.

Lemma count_presentation_url :
  count_sub (Spec.tag_start (lit "presentationURL")) (SSDP.xml_text u hn id)
  = 1%nat.
Proof.
  pose proof (count_tag_in_plain (lit "presentationURL") u Hu) as Cu.
  pose proof (count_tag_in_plain (lit "presentationURL") hn Hhn) as Ch.
  pose proof (count_tag_in_plain (lit "presentationURL") id Hid) as Ci.
  count_in_xml Cu Ch Ci.
Qed.

(** Plain inputs add no tag: the document has as many [<] as its
    template. *)
Lemma count_tags :
  count_sub [Spec.LT] (SSDP.xml_text u hn id)
  = count_sub [Spec.LT] (SSDP.xml_text [] [] []).
Proof.
  pose proof (count_tag_in_plain [] u Hu) as Cu.
  pose proof (count_tag_in_plain [] hn Hhn) as Ch.
  pose proof (count_tag_in_plain [] id Hid) as Ci.
  unfold Spec.tag_start in Cu, Ch, Ci.
  count_in_xml Cu Ch Ci.
Qed.

End Counts.

Ltac same_text :=
  unfold SSDP.xml_text, Spec.element_text; rewrite <- ?app_assoc;
  vm_compute; reflexivity.

Lemma xml_has_urlbase u hn id :
  contains (Spec.element_text (lit "URLBase") u) (SSDP.xml_text u hn id).
Proof.
  exists (firstn 150 (SSDP.xml_text [] [] [])),
         (skipn 169 (SSDP.xml_text [] hn id)).
  same_text.
Qed.

Lemma xml_has_friendly_name u hn id :
  contains (Spec.element_text (lit "friendlyName")
                              (lit "SABnzbd (" ++ hn ++ lit ")"))
           (SSDP.xml_text u hn id).
Proof.
  exists (firstn 159 (SSDP.xml_text [] [] []) ++ u ++
          firstn 81 (skipn 159 (SSDP.xml_text [] [] []))),
         (skipn 279 (SSDP.xml_text [] [] id)).
  same_text.
Qed.

Lemma xml_has_udn u hn id :
  contains (Spec.element_text (lit "UDN") (lit "uuid:" ++ id))
           (SSDP.xml_text u hn id).
Proof.
  exists (firstn 159 (SSDP.xml_text [] [] []) ++ u ++
          firstn 104 (skipn 159 (SSDP.xml_text [] [] [])) ++ hn ++
          firstn 217 (skipn 263 (SSDP.xml_text [] [] []))),
         (skipn 496 (SSDP.xml_text [] [] [])).
  same_text.
Qed.

Lemma xml_has_presentation_url u hn id :
  contains (Spec.element_text (lit "presentationURL") (lit "sabnzbd"))
           (SSDP.xml_text u hn id).
Proof.
  exists (firstn 159 (SSDP.xml_text [] [] []) ++ u ++
          firstn 104 (skipn 159 (SSDP.xml_text [] [] [])) ++ hn ++
          firstn 227 (skipn 263 (SSDP.xml_text [] [] [])) ++ id ++
          firstn 7 (skipn 490 (SSDP.xml_text [] [] []))),
         (skipn 539 (SSDP.xml_text [] [] [])).
  same_text.
Qed.

End Payloads.

(** ** Claims on the identifier and the payloads *)

Section Claims_payloads.
Import Py.

(** C1, as stated, fails: the identifier is computed from the text
    [hostname + host], so moving a character from the host to the hostname
    changes both inputs and leaves the identifier as it was. *)
Lemma uuid_same_for_shifted_cut_counterexample :
  Sample.construct = Ok Sample.fresh /\
  Sample.construct_shifted = Ok Sample.shifted /\
  SSDP.__myhostname Sample.fresh <> SSDP.__myhostname Sample.shifted /\
  SSDP.__host Sample.fresh <> SSDP.__host Sample.shifted /\
  SSDP.__uuid Sample.fresh = SSDP.__uuid Sample.shifted.
Proof.
  split; [vm_compute; reflexivity|]. split; [vm_compute; reflexivity|].
  split; [vm_compute; discriminate|]. split; [vm_compute; discriminate|].
  vm_compute; reflexivity.
Qed.

(** C1, amended: two constructions whose texts [hostname + host] are equal,
    which includes equal hostnames with equal hosts, have the same
    identifier, and that identifier is the version-3 UUID made from the MD5
    digest of the DNS namespace followed by the UTF-8 octets of
    [hostname + host]. *)
Theorem uuid_from_hostname_plus_host
    (hn1 hn2 h1 h2 n1 n2 u1 u2 d1 d2 : str) (o1 o2 : SSDP.t)
    (H1 : SSDP.__init__ (Ok hn1) h1 n1 u1 d1 = Ok o1)
    (H2 : SSDP.__init__ (Ok hn2) h2 n2 u2 d2 = Ok o2)
    (Hsame : hn1 ++ h1 = hn2 ++ h2) :
  SSDP.__uuid o1 = SSDP.__uuid o2 /\
  UUID.to_str (SSDP.__uuid o1) = UUID.to_str (SSDP.__uuid o2) /\
  exists name, utf8 (hn1 ++ h1) = Ok name /\
    SSDP.__uuid o1 =
      UUID.with_version
        (firstn 16 (MD5.digest (UUID.to_bytes UUID.NAMESPACE_DNS ++ name))) 3.
Proof.
  apply init_inv in H1 as (x1 & [= <-] & Hu1 & _).
  apply init_inv in H2 as (x2 & [= <-] & Hu2 & _).
  rewrite Hsame in Hu1.
  assert (E : SSDP.__uuid o1 = SSDP.__uuid o2) by congruence.
  split; [exact E|]. split; [now rewrite E|].
  rewrite <- Hsame in Hu1. unfold UUID.uuid3 in Hu1.
  apply bind_Ok in Hu1 as (name & Hn & Hv). injection Hv as Hv.
  exists name. auto.
Qed.

Lemma uuid_from_hostname_plus_host_witness :
  Sample.construct = Ok Sample.fresh /\
  Sample.construct_shifted = Ok Sample.shifted /\
  Sample.hostname ++ Sample.host = lit "nas1" ++ lit "92.168.1.50" /\
  SSDP.__uuid Sample.fresh = SSDP.__uuid Sample.shifted.
Proof.
  assert (H1 : Sample.construct = Ok Sample.fresh) by (vm_compute; reflexivity).
  assert (H2 : Sample.construct_shifted = Ok Sample.shifted)
    by (vm_compute; reflexivity).
  assert (H3 : Sample.hostname ++ Sample.host = lit "nas1" ++ lit "92.168.1.50")
    by reflexivity.
  repeat (split; [assumption|]).
  exact (proj1 (uuid_from_hostname_plus_host _ _ _ _ _ _ _ _ _ _ _ _ H1 H2 H3)).
Defined.

(** C3, as stated, fails: with a URL that ends in a line feed and carries
    the text of a UDN start tag, the LOCATION line of the broadcast message
    is not the URL followed by /description.xml (the line feed has become
    CR LF), and description.xml has two places where a UDN start tag
    begins. *)
Lemma payloads_odd_url_counterexample :
  Sample.construct_odd = Ok Sample.odd /\
  utf8 (Spec.announcement Sample.odd_url
                          (UUID.to_str (SSDP.__uuid Sample.odd)))
    <> Ok (SSDP.__mySSDPbroadcast Sample.odd) /\
  count_sub (Spec.tag_start (lit "UDN")) (SSDP.__myxml Sample.odd) = 2%nat.
Proof.
  split; [vm_compute; reflexivity|]. split; [|vm_compute; reflexivity].
  intros H.
  apply (f_equal (fun r => match r with Ok b => length b | Raise _ => 0%nat end))
    in H.
  vm_compute in H. discriminate.
Qed.

(** C3, amended: for a construction with the local hostname [hn], the
    identifier is [uuid3] of the DNS namespace and [hn + host]; the
    broadcast message is the UTF-8 encoding of the header block of the
    specification for the URL with each line feed turned into CR LF, which
    is the URL itself when it has no line feed; the text of description.xml
    contains the character sequences [<URLBase>url</URLBase>],
    [<presentationURL>sabnzbd</presentationURL>],
    [<friendlyName>SABnzbd (hn)</friendlyName>] and [<UDN>uuid:id</UDN>].
    When the URL and the hostname are plain text (legal XML characters from
    the space on, none of [<], [>], [&]), the start of a start tag of each
    of the four names occurs once in the document, at the sequence above,
    the text between its tags is plain, and the document has no [<] beyond
    those of its template: each of the four is the only element of its
    name and has that content.  The identifier occurs once in the value of
    the USN header. *)
Theorem payloads_content (hn h n u d : str) (o : SSDP.t)
    (Hinit : SSDP.__init__ (Ok hn) h n u d = Ok o) :
  let id := UUID.to_str (SSDP.__uuid o) in
  let xml := SSDP.__myxml o in
  UUID.uuid3 UUID.NAMESPACE_DNS (hn ++ h) = Ok (SSDP.__uuid o) /\
  utf8 (Spec.announcement (replace_lf_crlf u) id)
    = Ok (SSDP.__mySSDPbroadcast o) /\
  (Forall (fun c => c <> LF) u ->
     utf8 (Spec.announcement u id) = Ok (SSDP.__mySSDPbroadcast o)) /\
  contains (Spec.element_text (lit "URLBase") u) xml /\
  contains (Spec.element_text (lit "presentationURL") (lit "sabnzbd")) xml /\
  contains (Spec.element_text (lit "friendlyName")
                              (lit "SABnzbd (" ++ hn ++ lit ")")) xml /\
  contains (Spec.element_text (lit "UDN") (lit "uuid:" ++ id)) xml /\
  (Spec.xml_plain u = true -> Spec.xml_plain hn = true ->
     Spec.only_element (lit "URLBase") u xml /\
     Spec.only_element (lit "presentationURL") (lit "sabnzbd") xml /\
     Spec.only_element (lit "friendlyName")
                       (lit "SABnzbd (" ++ hn ++ lit ")") xml /\
     Spec.only_element (lit "UDN") (lit "uuid:" ++ id) xml /\
     count_sub [Spec.LT] xml = count_sub [Spec.LT] (SSDP.xml_text [] [] []) /\
     utf8 (Spec.announcement u id) = Ok (SSDP.__mySSDPbroadcast o)) /\
  count_sub id (Spec.usn_value id) = 1%nat.
Proof.
  intros id xml. subst id xml.
  apply init_inv in Hinit as (x & [= <-] & Hid & Hb & Hx & _).
  rewrite Hx.
  assert (Ha : utf8 (Spec.announcement (replace_lf_crlf u)
                       (UUID.to_str (SSDP.__uuid o)))
               = Ok (SSDP.__mySSDPbroadcast o)).
  { rewrite <- announcement_text; [exact Hb|].
    apply to_str_without. unfold LF. lia. }
  assert (Hlf : Forall (fun c => c <> LF) u ->
                utf8 (Spec.announcement u (UUID.to_str (SSDP.__uuid o)))
                = Ok (SSDP.__mySSDPbroadcast o)).
  { intros Hu. now rewrite (replace_lf_crlf_id u Hu) in Ha. }
  split; [exact Hid|]. split; [exact Ha|]. split; [exact Hlf|].
  split; [apply xml_has_urlbase|].
  split; [apply xml_has_presentation_url|].
  split; [apply xml_has_friendly_name|].
  split; [apply xml_has_udn|].
  split.
  { intros Hu Hn. pose proof (xml_plain_uuid (SSDP.__uuid o)) as Hi.
    unfold Spec.only_element.
    split; [split; [now apply count_urlbase|];
            split; [apply xml_has_urlbase | exact Hu]|].
    split; [split; [now apply count_presentation_url|];
            split; [apply xml_has_presentation_url | reflexivity]|].
    split; [split; [now apply count_friendly_name|];
            split; [apply xml_has_friendly_name|]|].
    { rewrite !xml_plain_app, Hn. reflexivity. }
    split; [split; [now apply count_udn|];
            split; [apply xml_has_udn|]|].
    { rewrite xml_plain_app, Hi. reflexivity. }
    split; [now apply count_tags|].
    apply Hlf. apply xml_plain_without; [exact Hu | unfold LF; lia]. }
  apply count_in_usn; [apply to_str_length | apply to_str_without; lia].
Qed.

Lemma payloads_content_witness :
  Sample.construct = Ok Sample.fresh /\
  Forall (fun c => c <> LF) Sample.url /\
  Spec.xml_plain Sample.url = true /\
  Spec.xml_plain Sample.hostname = true /\
  utf8 (Spec.announcement Sample.url
                          (UUID.to_str (SSDP.__uuid Sample.fresh)))
    = Ok (SSDP.__mySSDPbroadcast Sample.fresh) /\
  Spec.only_element (lit "UDN")
    (lit "uuid:" ++ UUID.to_str (SSDP.__uuid Sample.fresh))
    (SSDP.__myxml Sample.fresh) /\
  Spec.only_element (lit "URLBase") Sample.url (SSDP.__myxml Sample.fresh).
Proof.
  assert (H1 : Sample.construct = Ok Sample.fresh) by (vm_compute; reflexivity).
  assert (H2 : Forall (fun c => c <> LF) Sample.url).
  { unfold Sample.url. vm_compute. repeat (constructor; [discriminate|]).
    constructor. }
  assert (H3 : Spec.xml_plain Sample.url = true) by (vm_compute; reflexivity).
  assert (H4 : Spec.xml_plain Sample.hostname = true)
    by (vm_compute; reflexivity).
  repeat (split; [assumption|]).
  destruct (payloads_content _ _ _ _ _ _ H1)
    as (_ & _ & Ha & _ & _ & _ & _ & Hc & _).
  destruct (Hc H3 H4) as (Hurl & _ & _ & Hudn & _).
  split; [exact (Ha H2)|]. split; [exact Hudn | exact Hurl].
Defined.

End Claims_payloads.

(** ** Identifiers are few, inputs are many *)

Section Collisions.
Import Py.

Lemma high_zero_small x : 0 <= x < 2 ^ 128 -> Spec.high_zero x.
Proof.
  intros H n Hn. rewrite <- (Z.mod_small x (2 ^ 128)) by exact H.
  apply Z.mod_pow2_bits_high. lia.
Qed.

Lemma high_zero_bound x : 0 <= x -> Spec.high_zero x -> x < 2 ^ 128.
Proof.
  intros H0 H.
  assert (E : x mod 2 ^ 128 = x).
  { apply Z.bits_inj'. intros n Hn.
    destruct (Z_lt_le_dec n 128) as [Hl|Hl].
    - apply Z.mod_pow2_bits_low. lia.
    - rewrite Z.mod_pow2_bits_high by lia. symmetry. now apply H. }
  rewrite <- E. apply Z.mod_pos_bound. reflexivity.
Qed.

Lemma high_zero_lor x y :
  Spec.high_zero x -> Spec.high_zero y -> Spec.high_zero (Z.lor x y).
Proof. intros Hx Hy n Hn. now rewrite Z.lor_spec, Hx, Hy. Qed.

Lemma high_zero_ldiff x y : Spec.high_zero x -> Spec.high_zero (Z.ldiff x y).
Proof. intros Hx n Hn. now rewrite Z.ldiff_spec, Hx. Qed.

Lemma le_word_bound bs :
  Forall (fun b => 0 <= b < 256) bs ->
  0 <= MD5.le_word bs < 256 ^ Z.of_nat (length bs).
Proof.
  induction 1 as [|b bs Hb Hbs IH]; [cbn; lia|].
  cbn [MD5.le_word length]. rewrite Nat2Z.inj_succ, Z.pow_succ_r by lia. lia.
Qed.

Lemma le_bytes_bound n x : Forall (fun b => 0 <= b < 256) (MD5.le_bytes n x).
Proof.
  unfold MD5.le_bytes. apply List.Forall_forall. intros b Hb.
  apply in_map_iff in Hb as (k & <- & _). change 255 with (Z.ones 8).
  rewrite Z.land_ones by lia. apply Z.mod_pos_bound. reflexivity.
Qed.

Lemma digest_bound msg : Forall (fun b => 0 <= b < 256) (MD5.digest msg).
Proof.
  unfold MD5.digest. destruct (MD5.blocks _ _ _) as [a b c d].
  repeat (apply Forall_app; split); apply le_bytes_bound.
Qed.

Lemma with_version_bound bs :
  Forall (fun b => 0 <= b < 256) bs -> (length bs <= 16)%nat ->
  0 <= UUID.with_version bs 3 < 2 ^ 128.
Proof.
  intros Hb Hl.
  assert (Hi : 0 <= UUID.from_bytes bs < 2 ^ 128).
  { unfold UUID.from_bytes.
    pose proof (le_word_bound (rev bs)) as H.
    rewrite length_rev in H.
    assert (256 ^ Z.of_nat (length bs) <= 256 ^ 16)
      by (apply Z.pow_le_mono_r; lia).
    change (256 ^ 16) with (2 ^ 128) in *.
    specialize (H ltac:(now apply Forall_rev)). lia. }
  unfold UUID.with_version.
  split.
  - repeat first [apply Z.lor_nonneg; split | apply Z.ldiff_nonneg; left];
      try lia; now vm_compute.
  - apply high_zero_bound.
    + repeat first [apply Z.lor_nonneg; split | apply Z.ldiff_nonneg; left];
        try lia; now vm_compute.
    + repeat first [apply high_zero_lor | apply high_zero_ldiff];
        apply high_zero_small; try exact Hi; now vm_compute.
Qed.


Lemma no_injection_into_smaller (M : nat) (f : nat -> Z) :
  (forall i, 0 <= f i < Z.of_nat M) ->
  ~ (forall i j, (i <= M)%nat -> (j <= M)%nat -> f i = f j -> i = j).
Proof.
  intros Hr Hinj.
  assert (Hnd : NoDup (f <$> seq 0 (S M))).
  { apply NoDup_fmap_2_strong; [|apply NoDup_seq].
    intros i j Hi Hj. apply elem_of_seq in Hi, Hj. apply Hinj; lia. }
  assert (Hsub : f <$> seq 0 (S M) ⊆+ Z.of_nat <$> seq 0 M).
  { apply NoDup_submseteq; [exact Hnd|]. intros x Hx.
    apply list_elem_of_fmap in Hx as (i & -> & _).
    apply list_elem_of_fmap. exists (Z.to_nat (f i)).
    specialize (Hr i). split; [lia|]. apply elem_of_seq. lia. }
  apply submseteq_length in Hsub.
  rewrite !length_fmap, !length_seq in Hsub. lia.
Qed.

Lemma utf8_ascii s : is_ascii s = true -> utf8 s = Ok s.
Proof.
  unfold is_ascii. induction s as [|c s IH]; intros H; [reflexivity|].
  cbn [forallb] in H. apply andb_prop in H as [Hc Hs].
  apply andb_prop in Hc as [H0 H1].
  apply Z.leb_le in H0. apply Z.ltb_lt in H1.
  cbn [utf8]. unfold utf8_char.
  destruct (c <? 0) eqn:E0; [apply Z.ltb_lt in E0; lia|].
  destruct (c <? 128) eqn:E1; [|apply Z.ltb_ge in E1; lia].
  now rewrite (IH Hs).
Qed.

Lemma is_ascii_app a b : is_ascii (a ++ b) = is_ascii a && is_ascii b.
Proof. apply forallb_app. Qed.

Lemma is_ascii_replace s :
  is_ascii s = true -> is_ascii (replace_lf_crlf s) = true.
Proof.
  unfold is_ascii. induction s as [|c s IH]; intros H; [reflexivity|].
  cbn [forallb] in H. apply andb_prop in H as [Hc Hs].
  cbn [replace_lf_crlf]. destruct (c =? LF); cbn [forallb];
    rewrite (IH Hs); [reflexivity | now rewrite Hc].
Qed.

Lemma is_ascii_uuid u : is_ascii (UUID.to_str u) = true.
Proof.
  unfold is_ascii. apply forallb_forall. intros c Hc.
  pose proof (to_str_hexdash u) as H. rewrite List.Forall_forall in H.
  specialize (H c Hc). unfold Spec.hexdash in H.
  apply andb_true_intro. split; [apply Z.leb_le | apply Z.ltb_lt]; lia.
Qed.

(** With text of code points below 128, construction does not fail. *)
Lemma init_succeeds hn h n u d :
  is_ascii hn = true -> is_ascii h = true -> is_ascii u = true ->
  exists o, SSDP.__init__ (Ok hn) h n u d = Ok o /\
            0 <= SSDP.__uuid o < 2 ^ 128.
Proof.
  intros Hhn Hh Hu. unfold SSDP.__init__. cbn [bind].
  unfold UUID.uuid3 at 1.
  rewrite (utf8_ascii (hn ++ h)) by (now rewrite is_ascii_app, Hhn, Hh).
  cbn [bind].
  set (id := UUID.with_version _ 3).
  assert (Hid : 0 <= id < 2 ^ 128).
  { apply with_version_bound.
    - apply Forall_take, digest_bound.
    - rewrite length_take. lia. }
  rewrite utf8_ascii.
  - cbn [bind]. eexists. split; [reflexivity|]. exact Hid.
  - apply is_ascii_replace. unfold SSDP.broadcast_text.
    rewrite !is_ascii_app, Hu, is_ascii_uuid. vm_compute. reflexivity.
Qed.

Lemma repeat_inj (c : Z) i j : repeat c i = repeat c j -> i = j.
Proof.
  intros H. apply (f_equal (@length Z)) in H.
  now rewrite !repeat_length in H.
Qed.

Lemma is_ascii_zeros i : is_ascii (repeat 48 i) = true.
Proof. induction i as [|i IH]; [reflexivity|]. cbn. exact IH. Qed.

(** The identifier has 128 bits and hosts are without number: two hosts
    with one hostname share an identifier. *)
Lemma uuid_not_injective_in_host :
  ~ (forall h1 h2 o1 o2,
       SSDP.__init__ (Ok Sample.hostname) h1 Sample.server_name Sample.url
                     Sample.description = Ok o1 ->
       SSDP.__init__ (Ok Sample.hostname) h2 Sample.server_name Sample.url
                     Sample.description = Ok o2 ->
       h1 <> h2 -> SSDP.__uuid o1 <> SSDP.__uuid o2).
Proof.
  intros Hinj.
  set (f := fun i : nat =>
    match SSDP.__init__ (Ok Sample.hostname) (repeat 48 i) Sample.server_name
            Sample.url Sample.description with
    | Ok o => SSDP.__uuid o
    | Raise _ => 0
    end).
  assert (Hok : forall i, exists o,
    SSDP.__init__ (Ok Sample.hostname) (repeat 48 i) Sample.server_name
      Sample.url Sample.description = Ok o /\ f i = SSDP.__uuid o /\
    0 <= f i < 2 ^ 128).
  { intros i.
    destruct (init_succeeds Sample.hostname (repeat 48 i) Sample.server_name
                Sample.url Sample.description) as (o & Ho & Hb);
      [reflexivity | apply is_ascii_zeros | reflexivity |].
    exists o. subst f. cbv beta. rewrite Ho. auto. }
  apply (no_injection_into_smaller (Z.to_nat (2 ^ 128)) f).
  - intros i. destruct (Hok i) as (_ & _ & _ & Hb).
    rewrite Z2Nat.id by lia. exact Hb.
  - intros i j _ _ E.
    destruct (Hok i) as (oi & Hi & Ei & _).
    destruct (Hok j) as (oj & Hj & Ej & _).
    destruct (Nat.eq_dec i j) as [|Hne]; [assumption|]. exfalso.
    apply (Hinj _ _ _ _ Hi Hj); [|congruence].
    intros Hr. apply Hne. eapply repeat_inj; eauto.
Qed.

End Collisions.

(** * Further properties of the code *)

(** ** What one step does to one instance *)

Section Step_effect.
Import Py.

Lemma lookup_insert_cases (h : list SSDP.t) r0 x o0 r o :
  h !! r0 = Some o0 -> h !! r = Some o ->
  (r0 = r /\ o = o0 /\ <[r0:=x]> h !! r = Some x) \/
  (r0 <> r /\ <[r0:=x]> h !! r = Some o).
Proof.
  intros H0 Hr. destruct (Nat.eq_dec r0 r) as [<-|Hne].
  - left. split; [reflexivity|]. split; [congruence|].
    apply list_lookup_insert_eq. eapply lookup_lt_Some; eauto.
  - right. split; [exact Hne|]. now rewrite list_lookup_insert_ne.
Qed.

(** The instance behind [r] after a step: untouched, started, stopped, or
    moved on by its own thread. *)
Lemma step_object e w w' r o :
  step e w = Some w' -> heap w !! r = Some o ->
  exists o', heap w' !! r = Some o' /\
    (o' = o \/
     (e = CallStart r /\ SSDP.start o = Ok o') \/
     (e = CallStop r /\ o' = SSDP.stop o) \/
     (e = CallStopSsdp /\ __SSDP w = Some r /\
      Thread.is_alive (SSDP.thread o) = true /\ o' = SSDP.stop o) \/
     (exists io ds, e = Run r io /\ SSDP.run_step io o = Some (o', ds))).
Proof.
  intros Hs Hr.
  destruct e as [g h n u d|r0|r0|g h n u d| | |r0 io]; cbn [step] in Hs.
  - destruct (is_ready w); [|discriminate].
    destruct (SSDP.__init__ g h n u d); injection Hs as <-; eauto.
    exists o. split; [|now left].
    cbn [set_heap heap]. now apply lookup_app_l_Some.
  - destruct (is_ready w); [|discriminate].
    destruct (heap w !! r0) as [o0|] eqn:E0; [|discriminate].
    destruct (SSDP.start o0) as [o0'|] eqn:Es; injection Hs as <-; eauto.
    cbn [set_heap heap].
    destruct (lookup_insert_cases (heap w) r0 o0' o0 r o E0 Hr)
      as [(-> & -> & H)|(Hne & H)]; [|eauto].
    exists o0'. split; [exact H|]. right; left. auto.
  - destruct (is_ready w); [|discriminate].
    destruct (heap w !! r0) as [o0|] eqn:E0; [|discriminate].
    injection Hs as <-. cbn [set_heap heap].
    destruct (lookup_insert_cases (heap w) r0 (SSDP.stop o0) o0 r o E0 Hr)
      as [(-> & -> & H)|(Hne & H)]; [|eauto].
    exists (SSDP.stop o0). split; [exact H|]. right; right; left. auto.
  - destruct (is_ready w); [|discriminate]. injection Hs as <-.
    destruct (start_ssdp_cases g h n u d w) as [(e & _ & E)|(o2 & _ & E)];
      rewrite E; cbn [fst heap]; eauto.
    exists o. split; [|now left]. now apply lookup_app_l_Some.
  - destruct (is_ready w); [|discriminate].
    destruct (stop_ssdp_cases w) as [[E _]|(r0 & o0 & Hg & E0 & Ha & E)];
      rewrite E in Hs; injection Hs as <-; eauto.
    cbn [set_caller set_heap heap].
    destruct (lookup_insert_cases (heap w) r0 (SSDP.stop o0) o0 r o E0 Hr)
      as [(-> & -> & H)|(Hne & H)]; [|eauto].
    exists (SSDP.stop o0). split; [exact H|]. right; right; right; left.
    auto.
  - destruct (caller w) as [|r0]; [discriminate|].
    destruct (heap w !! r0) as [o0|]; [|discriminate].
    destruct (Thread.join (SSDP.thread o0)) as [[]|]; try discriminate.
    injection Hs as <-. eauto.
  - destruct (heap w !! r0) as [o0|] eqn:E0; [|discriminate].
    destruct (SSDP.run_step io o0) as [[o0' ds]|] eqn:Er; [|discriminate].
    injection Hs as <-. cbn [heap].
    destruct (lookup_insert_cases (heap w) r0 o0' o0 r o E0 Hr)
      as [(-> & -> & H)|(Hne & H)]; [|eauto].
    exists o0'. split; [exact H|]. right; right; right; right. eauto.
Qed.

(** Only a step of a thread adds to what was sent, and it adds what
    [run_step] hands out. *)
Lemma step_sent e w w' :
  step e w = Some w' ->
  (Obs.is_run e = false /\ sent w' = sent w) \/
  (exists r io o o' ds, e = Run r io /\ heap w !! r = Some o /\
     SSDP.run_step io o = Some (o', ds) /\ sent w' = sent w ++ ds).
Proof.
  intros Hs.
  destruct e as [g h n u d|r0|r0|g h n u d| | |r0 io]; cbn [step] in Hs.
  - left. split; [reflexivity|]. destruct (is_ready w); [|discriminate].
    destruct (SSDP.__init__ g h n u d); now injection Hs as <-.
  - left. split; [reflexivity|]. destruct (is_ready w); [|discriminate].
    destruct (heap w !! r0) as [o0|]; [|discriminate].
    destruct (SSDP.start o0); now injection Hs as <-.
  - left. split; [reflexivity|]. destruct (is_ready w); [|discriminate].
    destruct (heap w !! r0) as [o0|]; [|discriminate]. now injection Hs as <-.
  - left. split; [reflexivity|]. destruct (is_ready w); [|discriminate].
    injection Hs as <-.
    destruct (start_ssdp_cases g h n u d w) as [(e & _ & E)|(o2 & _ & E)];
      now rewrite E.
  - left. split; [reflexivity|]. destruct (is_ready w); [|discriminate].
    destruct (stop_ssdp_cases w) as [[E _]|(r0 & o0 & _ & _ & _ & E)];
      rewrite E in Hs; now injection Hs as <-.
  - left. split; [reflexivity|]. destruct (caller w) as [|r0]; [discriminate|].
    destruct (heap w !! r0) as [o0|]; [|discriminate].
    destruct (Thread.join (SSDP.thread o0)) as [[]|]; try discriminate.
    now injection Hs as <-.
  - right. destruct (heap w !! r0) as [o0|] eqn:E0; [|discriminate].
    destruct (SSDP.run_step io o0) as [[o0' ds]|] eqn:Er; [|discriminate].
    injection Hs as <-. exists r0, io, o0, o0', ds. auto.
Qed.

(** Only [start_ssdp] rebinds the module global. *)
Lemma step_global e w w' :
  is_start_ssdp e = false -> step e w = Some w' -> __SSDP w' = __SSDP w.
Proof.
  intros He Hs.
  destruct e as [g h n u d|r0|r0|g h n u d| | |r0 io]; try discriminate;
    cbn [step] in Hs.
  - destruct (is_ready w); [|discriminate].
    destruct (SSDP.__init__ g h n u d); now injection Hs as <-.
  - destruct (is_ready w); [|discriminate].
    destruct (heap w !! r0) as [o0|]; [|discriminate].
    destruct (SSDP.start o0); now injection Hs as <-.
  - destruct (is_ready w); [|discriminate].
    destruct (heap w !! r0) as [o0|]; [|discriminate]. now injection Hs as <-.
  - destruct (is_ready w); [|discriminate].
    destruct (stop_ssdp_cases w) as [[E _]|(r0 & o0 & _ & _ & _ & E)];
      rewrite E in Hs; now injection Hs as <-.
  - destruct (caller w) as [|r0]; [discriminate|].
    destruct (heap w !! r0) as [o0|]; [|discriminate].
    destruct (Thread.join (SSDP.thread o0)) as [[]|]; try discriminate.
    now injection Hs as <-.
  - destruct (heap w !! r0) as [o0|]; [|discriminate].
    destruct (SSDP.run_step io o0) as [[o0' ds]|]; [|discriminate].
    now injection Hs as <-.
Qed.

Lemma exec_global es : forall w w',
  forallb (fun e => negb (is_start_ssdp e)) es = true ->
  exec es w = Some w' -> __SSDP w' = __SSDP w.
Proof.
  induction es as [|e es IH]; intros w w' Hn He; cbn [exec] in He.
  - now injection He as <-.
  - cbn [forallb] in Hn. apply andb_prop in Hn as [Hn1 Hn2].
    destruct (step e w) as [w1|] eqn:Es; [|discriminate].
    rewrite (IH w1 w' Hn2 He).
    apply (step_global e); [now destruct (is_start_ssdp e) | exact Es].
Qed.

End Step_effect.

(** ** The life of a thread and what it sends *)

Section Thread_life.
Import Py.

Lemma exec_invariant (P : world -> Prop) :
  (forall e w w', P w -> step e w = Some w' -> P w') ->
  forall es w w', P w -> exec es w = Some w' -> P w'.
Proof.
  intros Hstep. induction es as [|e es IH]; intros w w' Hw He;
    cbn [exec] in He.
  - now injection He as <-.
  - destruct (step e w) as [w1|] eqn:Es; [|discriminate]. eauto.
Qed.

Lemma run_step_rank io o o' ds :
  SSDP.run_step io o = Some (o', ds) ->
  (Obs.rank (SSDP.thread o) <= Obs.rank (SSDP.thread o'))%nat /\
  SSDP.__stop o' = SSDP.__stop o /\ frozen o' = frozen o /\
  (ds = [] \/
   (ds = [Obs.announcement_of o] /\ io = true /\
    SSDP.thread o = Thread.Running Thread.Network /\
    SSDP.thread o' = Thread.Running Thread.Sleep)).
Proof.
  unfold SSDP.run_step.
  destruct (SSDP.thread o) as [|[]|] eqn:E; try discriminate;
    try destruct (SSDP.__stop o) eqn:F; try destruct io;
    intros [= <- <-]; cbn [SSDP.thread SSDP.set_thread SSDP.__stop Obs.rank];
    (split; [lia|]); (split; [congruence|]); (split; [reflexivity|]);
    first [left; reflexivity | right; repeat split; reflexivity].
Qed.

Lemma step_rank e w w' r o :
  step e w = Some w' -> heap w !! r = Some o ->
  exists o', heap w' !! r = Some o' /\
    (Obs.rank (SSDP.thread o) <= Obs.rank (SSDP.thread o'))%nat.
Proof.
  intros Hs Hr.
  destruct (step_object _ _ _ _ _ Hs Hr) as (o' & Hr' & Hc).
  exists o'. split; [exact Hr'|].
  destruct Hc as [E|[(_ & H)|[(_ & E)|[(_ & _ & _ & E)|(io & ds & _ & H)]]]];
    try (rewrite E; cbn [SSDP.stop SSDP.set_stop SSDP.thread]; lia).
  - apply start_inv in H as [Hi E]. rewrite E, Hi. cbn. lia.
  - now apply run_step_rank in H.
Qed.

Lemma exec_rank es : forall w w' r o,
  exec es w = Some w' -> heap w !! r = Some o ->
  exists o', heap w' !! r = Some o' /\
    (Obs.rank (SSDP.thread o) <= Obs.rank (SSDP.thread o'))%nat.
Proof.
  induction es as [|e es IH]; intros w w' r o He Hr; cbn [exec] in He.
  - injection He as <-. eauto.
  - destruct (step e w) as [w1|] eqn:Es; [|discriminate].
    destruct (step_rank _ _ _ _ _ Es Hr) as (o1 & H1 & L1).
    destruct (IH _ _ _ _ He H1) as (o2 & H2 & L2).
    exists o2. split; [exact H2 | lia].
Qed.

(** X5: a thread only moves forward, from not started to running to ended.
    An instance that has been started, whatever happened since, refuses a
    second [start()] with [RuntimeError], and the refused call changes
    nothing; an ended thread is never alive again. *)
Theorem thread_never_goes_back (es : list event) (w w' : world) (r : nat)
    (o o' : SSDP.t)
    (Hexec : exec es w = Some w')
    (Hobj : heap w !! r = Some o) (Hobj' : heap w' !! r = Some o') :
  (Obs.rank (SSDP.thread o) <= Obs.rank (SSDP.thread o'))%nat /\
  (SSDP.thread o <> Thread.Initial ->
     SSDP.start o' = Raise RuntimeError /\
     (caller w' = Ready -> step (CallStart r) w' = Some w')) /\
  (SSDP.thread o = Thread.Terminated ->
     Thread.is_alive (SSDP.thread o') = false).
Proof.
  destruct (exec_rank _ _ _ _ _ Hexec Hobj) as (o2 & H2 & L).
  assert (o2 = o') by congruence. subst o2.
  split; [exact L|]. split.
  - intros Hn.
    assert (Hs : SSDP.start o' = Raise RuntimeError).
    { unfold SSDP.start, Thread.start.
      destruct (SSDP.thread o); [congruence| |];
        destruct (SSDP.thread o'); cbn in L; try lia; reflexivity. }
    split; [exact Hs|]. intros Hc. cbn [step]. unfold is_ready.
    now rewrite Hc, Hobj', Hs.
  - intros Ht. rewrite Ht in L.
    destruct (SSDP.thread o'); cbn in L; try lia; reflexivity.
Qed.

Lemma thread_never_goes_back_witness :
  let es := [Run 0 true; Run 0 false] in
  let o' := SSDP.set_thread Thread.Terminated Sample.instance in
  let w' := World [o'] (Some 0%nat) [] Ready in
  exec es Sample.started = Some w' /\
  heap Sample.started !! 0%nat = Some Sample.instance /\
  heap w' !! 0%nat = Some o' /\
  SSDP.start o' = Raise RuntimeError /\
  step (CallStart 0) w' = Some w'.
Proof.
  intros es o' w'.
  assert (H1 : exec es Sample.started = Some w') by (vm_compute; reflexivity).
  assert (H2 : heap Sample.started !! 0%nat = Some Sample.instance)
    by (vm_compute; reflexivity).
  assert (H3 : heap w' !! 0%nat = Some o') by reflexivity.
  destruct (thread_never_goes_back _ _ _ _ _ _ H1 H2 H3) as (_ & Hs & _).
  destruct Hs as [Ha Hb]; [discriminate|].
  repeat (split; [assumption|]). apply Hb. reflexivity.
Defined.

Lemma announcement_of_frozen o o' :
  frozen o' = frozen o -> Obs.announcement_of o' = Obs.announcement_of o.
Proof.
  unfold frozen, Obs.announcement_of. intros [= _ _ _ _ _ _ -> _]. reflexivity.
Qed.

Lemma step_sent_by_instance e w w' d :
  step e w = Some w' -> Obs.sent_by_instance w d -> Obs.sent_by_instance w' d.
Proof.
  intros Hs (r & o & Hr & ->).
  destruct (step_lookup _ _ _ _ _ Hs Hr) as (o' & Hr' & Hf & _).
  exists r, o'. split; [exact Hr'|]. symmetry. now apply announcement_of_frozen.
Qed.

Lemma step_all_sent e w w' :
  step e w = Some w' ->
  Forall (Obs.sent_by_instance w) (sent w) ->
  Forall (Obs.sent_by_instance w') (sent w').
Proof.
  intros Hs Hall.
  assert (Hold : Forall (Obs.sent_by_instance w') (sent w)).
  { refine (List.Forall_impl _ _ Hall). intros d.
    exact (step_sent_by_instance e w w' d Hs). }
  destruct (step_sent _ _ _ Hs)
    as [[_ ->]|(r & io & o & o' & ds & _ & Hr & Hrun & ->)]; [exact Hold|].
  apply Forall_app. split; [exact Hold|].
  apply run_step_rank in Hrun as (_ & _ & _ & [->|(-> & _)]);
    [constructor|].
  constructor; [|constructor].
  apply (step_sent_by_instance _ _ _ _ Hs). exists r, o. auto.
Qed.

(** X1: whatever has been sent in a reachable world went to
    239.255.255.250:1900 with TTL 2 and carries, unchanged, the broadcast
    message that an instance of the heap built at construction; and no call
    into the module (construction, start, stop, the wrappers, the return of
    a join) sends anything: only a step of a running thread does. *)
Theorem sent_only_announcements (w : world) (Hreach : reachable w) :
  Forall (fun d =>
            group d = SSDP.MCAST_GRP /\ port d = 1900 /\ ttl d = 2 /\
            exists r o, heap w !! r = Some o /\
                        payload d = SSDP.__mySSDPbroadcast o)
         (sent w) /\
  (forall e w1 w2, Obs.is_run e = false -> step e w1 = Some w2 ->
                   sent w2 = sent w1).
Proof.
  split.
  - destruct Hreach as [es He].
    assert (H : Forall (Obs.sent_by_instance w) (sent w)).
    { refine (exec_invariant
                (fun w => Forall (Obs.sent_by_instance w) (sent w))
                _ es initial w _ He).
      - intros e w1 w2 H1 Hs. eapply step_all_sent; eauto.
      - constructor. }
    refine (List.Forall_impl _ _ H). intros d (r & o & Hr & ->).
    cbn. repeat split; eauto.
  - intros e w1 w2 Hn Hs.
    destruct (step_sent _ _ _ Hs) as [[_ E]|(r & io & o & o' & ds & -> & _)];
      [exact E | discriminate].
Qed.

Lemma sent_only_announcements_witness :
  let w := World [SSDP.set_thread (Thread.Running Thread.Sleep)
                                  Sample.instance]
                 (Some 0%nat) [Obs.announcement_of Sample.instance] Ready in
  reachable w /\
  Forall (fun d => group d = SSDP.MCAST_GRP /\ port d = 1900 /\ ttl d = 2 /\
            exists r o, heap w !! r = Some o /\
                        payload d = SSDP.__mySSDPbroadcast o) (sent w).
Proof.
  intros w.
  assert (H : reachable w).
  { exists [Sample.start_call; Run 0 true; Run 0 true].
    vm_compute. reflexivity. }
  split; [exact H|]. exact (proj1 (sent_only_announcements w H)).
Defined.

End Thread_life.

(** ** The loop: what it sends, when it ends *)

Section Loop.
Import Py.

Lemma run_step_flagged io o o' ds :
  SSDP.__stop o = true -> SSDP.run_step io o = Some (o', ds) ->
  SSDP.__stop o' = true /\ Obs.may_send o' = 0%nat /\
  (length ds <= Obs.may_send o)%nat.
Proof.
  unfold SSDP.run_step, Obs.may_send. intros F.
  destruct (SSDP.thread o) as [|[]|] eqn:E; try discriminate;
    rewrite ?F; try destruct io; intros [= <- <-];
    cbn [SSDP.thread SSDP.set_thread SSDP.__stop length];
    (split; [exact F|]); split; auto.
Qed.

Lemma step_run_of r e w w' o :
  Obs.is_run_of r e = true -> step e w = Some w' -> heap w !! r = Some o ->
  exists io o' ds, SSDP.run_step io o = Some (o', ds) /\
    heap w' !! r = Some o' /\ sent w' = sent w ++ ds.
Proof.
  intros He Hs Hr. destruct e as [| | | | | |r0 io]; try discriminate.
  cbn [Obs.is_run_of] in He. apply Nat.eqb_eq in He. subst r0.
  cbn [step] in Hs. rewrite Hr in Hs.
  destruct (SSDP.run_step io o) as [[o' ds]|] eqn:Er; [|discriminate].
  injection Hs as <-. exists io, o', ds. cbn [heap sent].
  split; [exact Er|]. split; [|reflexivity].
  apply list_lookup_insert_eq. eapply lookup_lt_Some; eauto.
Qed.

Lemma step_not_run_of r e w w' o :
  Obs.is_run_of r e = false -> step e w = Some w' -> heap w !! r = Some o ->
  SSDP.__stop o = true ->
  exists o', heap w' !! r = Some o' /\ SSDP.__stop o' = true /\
             (Obs.may_send o' <= Obs.may_send o)%nat.
Proof.
  intros He Hs Hr F.
  destruct (step_object _ _ _ _ _ Hs Hr) as (o' & Hr' & Hc).
  exists o'. split; [exact Hr'|].
  destruct Hc as [E|[(_ & H)|[(_ & E)|[(_ & _ & _ & E)|(io & ds & E & _)]]]].
  - subst o'. auto.
  - apply start_inv in H as [Hi E]. subst o'. unfold Obs.may_send.
    cbn [SSDP.set_thread SSDP.thread SSDP.__stop]. rewrite Hi. auto.
  - subst o'. unfold Obs.may_send, SSDP.stop. cbn. auto.
  - subst o'. unfold Obs.may_send, SSDP.stop. cbn. auto.
  - subst e. cbn [Obs.is_run_of] in He. now rewrite Nat.eqb_refl in He.
Qed.

Lemma sends_by_bound r es : forall w o,
  heap w !! r = Some o -> SSDP.__stop o = true ->
  (Obs.sends_by r es w <= Obs.may_send o)%nat.
Proof.
  induction es as [|e es IH]; intros w o Hr F; cbn [Obs.sends_by]; [lia|].
  destruct (step e w) as [w'|] eqn:Es; [|lia].
  destruct (Obs.is_run_of r e) eqn:He.
  - destruct (step_run_of _ _ _ _ _ He Es Hr)
      as (io & o' & ds & Hrun & Hr' & E).
    destruct (run_step_flagged _ _ _ _ F Hrun) as (F' & M' & L).
    pose proof (IH _ _ Hr' F') as B.
    rewrite E, length_app. lia.
  - destruct (step_not_run_of _ _ _ _ _ He Es Hr F) as (o' & Hr' & F' & M).
    pose proof (IH _ _ Hr' F') as B. lia.
Qed.

(** X2: once the flag of an instance is set, its thread sends at most one
    more datagram in any execution, and none unless it was already inside
    the socket block when the flag was set. *)
Theorem at_most_one_send_after_stop (es : list event) (w : world) (r : nat)
    (o : SSDP.t)
    (Hobj : heap w !! r = Some o) (Hflag : SSDP.__stop o = true) :
  (Obs.sends_by r es w <= 1)%nat /\
  (SSDP.thread o <> Thread.Running Thread.Network ->
   Obs.sends_by r es w = 0%nat).
Proof.
  pose proof (sends_by_bound r es w o Hobj Hflag) as B.
  unfold Obs.may_send in B.
  split.
  - destruct (SSDP.thread o) as [|[]|]; lia.
  - intros Hn. destruct (SSDP.thread o) as [|[]|]; try lia. congruence.
Qed.

Lemma at_most_one_send_after_stop_witness :
  let o := SSDP.stop (SSDP.set_thread (Thread.Running Thread.Network)
                                      Sample.instance) in
  let w := World [o] (Some 0%nat) [] Ready in
  let es := [Run 0 true; Run 0 true; Run 0 true] in
  heap w !! 0%nat = Some o /\ SSDP.__stop o = true /\
  Obs.sends_by 0 es w = 1%nat /\ (Obs.sends_by 0 es w <= 1)%nat.
Proof.
  intros o w es.
  assert (H1 : heap w !! 0%nat = Some o) by reflexivity.
  assert (H2 : SSDP.__stop o = true) by reflexivity.
  split; [exact H1|]. split; [exact H2|].
  split; [vm_compute; reflexivity|].
  exact (proj1 (at_most_one_send_after_stop es w 0 o H1 H2)).
Defined.

Lemma loop_iteration o :
  SSDP.__stop o = false -> SSDP.thread o = Thread.Running Thread.LoopTest ->
  forall ios,
    Obs.run_many (true :: true :: true :: ios) o =
    (let (o', ds) := Obs.run_many ios o in (o', Obs.announcement_of o :: ds)).
Proof.
  intros F T ios. destruct o as [h n u d hn id b x s t].
  cbn in F, T. subst s t.
  cbn [Obs.run_many SSDP.run_step SSDP.thread SSDP.__stop SSDP.set_thread
       SSDP.__host SSDP.__server_name SSDP.__url SSDP.__description
       SSDP.__myhostname SSDP.__uuid SSDP.__mySSDPbroadcast SSDP.__myxml].
  destruct (Obs.run_many ios _) as [o' ds]. reflexivity.
Qed.

(** X3: while the flag stays false and the socket calls succeed, every turn
    of the loop (test, send, sleep) sends one datagram, always the same
    one: the broadcast message to 239.255.255.250:1900 with TTL 2; after
    [n] turns the thread is back at the loop test and the instance is as it
    was. *)
Theorem loop_sends_one_per_turn (n : nat) (o : SSDP.t)
    (Hflag : SSDP.__stop o = false)
    (Hpc : SSDP.thread o = Thread.Running Thread.LoopTest) :
  Obs.run_many (repeat true (3 * n)) o =
    (o, repeat (Datagram (SSDP.__mySSDPbroadcast o)
                         (lit "239.255.255.250") 1900 2) n).
Proof.
  induction n as [|n IH]; [reflexivity|].
  replace (3 * S n)%nat with (S (S (S (3 * n)))) by lia.
  cbn [repeat]. rewrite (loop_iteration o Hflag Hpc), IH. reflexivity.
Qed.

Lemma loop_sends_one_per_turn_witness :
  SSDP.__stop Sample.instance = false /\
  SSDP.thread Sample.instance = Thread.Running Thread.LoopTest /\
  Obs.run_many (repeat true 6) Sample.instance =
    (Sample.instance,
     [Obs.announcement_of Sample.instance;
      Obs.announcement_of Sample.instance]).
Proof.
  assert (H1 : SSDP.__stop Sample.instance = false)
    by (vm_compute; reflexivity).
  assert (H2 : SSDP.thread Sample.instance = Thread.Running Thread.LoopTest)
    by reflexivity.
  split; [exact H1|]. split; [exact H2|].
  exact (loop_sends_one_per_turn 2 Sample.instance H1 H2).
Defined.

Lemma run_step_keeps_running o o' ds :
  SSDP.__stop o = false -> SSDP.run_step true o = Some (o', ds) ->
  Thread.is_alive (SSDP.thread o') = true.
Proof.
  unfold SSDP.run_step. intros F.
  destruct (SSDP.thread o) as [|[]|]; try discriminate; rewrite ?F;
    intros [= <- <-]; reflexivity.
Qed.

Lemma step_keeps_running e w w' r o o' :
  step e w = Some w' -> heap w !! r = Some o -> heap w' !! r = Some o' ->
  Thread.is_alive (SSDP.thread o) = true -> SSDP.__stop o = false ->
  Obs.is_failed_run_of r e = false ->
  Thread.is_alive (SSDP.thread o') = true.
Proof.
  intros Hs Hr Hr' A F He.
  destruct (step_object _ _ _ _ _ Hs Hr) as (o2 & Hr2 & Hc).
  assert (o2 = o') by congruence. subst o2.
  destruct Hc as [E|[(_ & H)|[(_ & E)|[(_ & _ & _ & E)|(io & ds & E & H)]]]].
  - now subst o'.
  - apply start_inv in H as [Hi _]. rewrite Hi in A. discriminate.
  - now subst o'.
  - now subst o'.
  - subst e. cbn [Obs.is_failed_run_of] in He. destruct io.
    + eapply run_step_keeps_running; eauto.
    + now rewrite Nat.eqb_refl in He.
Qed.

(** X13: a running thread ends only through the flag or through a socket
    call that raises: in an execution without a failed step of the thread
    of [r], if the flag of [r] is still false at the end, the thread of [r]
    is still alive. *)
Theorem thread_ends_only_by_flag_or_failure (es : list event) :
  forall (w w' : world) (r : nat) (o o' : SSDP.t)
    (Hexec : exec es w = Some w')
    (Hobj : heap w !! r = Some o) (Hobj' : heap w' !! r = Some o')
    (Halive : Thread.is_alive (SSDP.thread o) = true)
    (Hflag : SSDP.__stop o' = false)
    (Hio : forallb (fun e => negb (Obs.is_failed_run_of r e)) es = true),
  Thread.is_alive (SSDP.thread o') = true.
Proof.
  induction es as [|e es IH]; intros w w' r o o' Hexec Hobj Hobj' Halive
    Hflag Hio; cbn [exec] in Hexec.
  - injection Hexec as <-. congruence.
  - destruct (step e w) as [w1|] eqn:Es; [|discriminate].
    cbn [forallb] in Hio. apply andb_prop in Hio as [Hio1 Hio2].
    apply negb_true_iff in Hio1.
    destruct (step_lookup _ _ _ _ _ Es Hobj) as (o1 & Hr1 & _ & Hs1 & _).
    destruct (exec_lookup _ _ _ _ _ Hexec Hr1) as (o2 & Hr2 & _ & Hs2 & _).
    assert (o2 = o') by congruence. subst o2.
    assert (F1 : SSDP.__stop o1 = false).
    { destruct (SSDP.__stop o1); [|reflexivity].
      rewrite Hs2 in Hflag by reflexivity. discriminate. }
    assert (F : SSDP.__stop o = false).
    { destruct (SSDP.__stop o); [|reflexivity].
      rewrite Hs1 in F1 by reflexivity. discriminate. }
    apply (IH w1 w' r o1 o' Hexec Hr1 Hobj'); auto.
    eapply step_keeps_running; eauto.
Qed.

Lemma thread_ends_only_by_flag_or_failure_witness :
  let es := [Run 0 true; Run 0 true; Run 0 true; Run 0 true] in
  let o' := SSDP.set_thread (Thread.Running Thread.Network)
                            Sample.instance in
  exists w', exec es Sample.started = Some w' /\
    heap Sample.started !! 0%nat = Some Sample.instance /\
    heap w' !! 0%nat = Some o' /\
    Thread.is_alive (SSDP.thread Sample.instance) = true /\
    SSDP.__stop o' = false /\
    forallb (fun e => negb (Obs.is_failed_run_of 0 e)) es = true /\
    Thread.is_alive (SSDP.thread o') = true.
Proof.
  intros es o'.
  exists (World [o'] (Some 0%nat) [Obs.announcement_of Sample.instance]
                Ready).
  assert (H1 : exec es Sample.started =
               Some (World [o'] (Some 0%nat)
                           [Obs.announcement_of Sample.instance] Ready))
    by (vm_compute; reflexivity).
  assert (H2 : heap Sample.started !! 0%nat = Some Sample.instance)
    by (vm_compute; reflexivity).
  assert (H3 : SSDP.__stop o' = false) by (vm_compute; reflexivity).
  split; [exact H1|]. split; [exact H2|]. split; [reflexivity|].
  split; [reflexivity|]. split; [exact H3|]. split; [reflexivity|].
  exact (thread_ends_only_by_flag_or_failure es _ _ 0%nat _ o' H1 H2
           eq_refl eq_refl H3 eq_refl).
Defined.

End Loop.

(** ** What the wrappers answer *)

Section Wrappers.
Import Py.

Lemma lookup_snoc_last (h : list SSDP.t) x : (h ++ [x]) !! length h = Some x.
Proof. rewrite lookup_app_r by lia. now rewrite Nat.sub_diag. Qed.

(** In a reachable world the tracked instance exists and has been
    started. *)
Lemma reachable_tracked_started w :
  reachable w ->
  match __SSDP w with
  | Some r => exists o, heap w !! r = Some o /\
                        SSDP.thread o <> Thread.Initial
  | None => True
  end.
Proof.
  intros [es He].
  refine (exec_invariant
            (fun w => match __SSDP w with
                      | Some r => exists o, heap w !! r = Some o /\
                                            SSDP.thread o <> Thread.Initial
                      | None => True
                      end) _ es initial w I He).
  clear. intros e w w' Hw Hs.
  destruct (is_start_ssdp e) eqn:Ee.
  - destruct e as [| | |g h n u d| | |]; try discriminate.
    cbn [step] in Hs. destruct (is_ready w); [|discriminate].
    injection Hs as <-.
    destruct (start_ssdp_cases g h n u d w) as [(e & _ & E)|(o2 & _ & E)];
      rewrite E; cbn [fst __SSDP heap]; [exact Hw|].
    eexists. split; [apply lookup_snoc_last|]. discriminate.
  - rewrite (step_global e w w' Ee Hs).
    destruct (__SSDP w) as [r|]; [|exact I].
    destruct Hw as (o & Hr & Hn).
    destruct (step_rank _ _ _ _ _ Hs Hr) as (o' & Hr' & L).
    exists o'. split; [exact Hr'|]. intros Hi. rewrite Hi in L.
    destruct (SSDP.thread o); cbn in L; try lia. congruence.
Qed.

Lemma server_ssdp_xml_value w :
  server_ssdp_xml w =
  match tracked w with
  | Some o =>
      if Thread.is_alive (SSDP.thread o) then
        if SSDP.__stop o then VNone else VStr (SSDP.__myxml o)
      else VStr []
  | None => VStr []
  end.
Proof. reflexivity. Qed.

Lemma reachable_tracked_xml w o :
  reachable w -> tracked w = Some o -> SSDP.__myxml o <> [].
Proof.
  intros Hr Ht. unfold tracked in Ht.
  destruct (__SSDP w) as [r|]; [|discriminate].
  eapply built_xml_nonempty, reachable_built; eauto.
Qed.

Ltac by_cases :=
  repeat split; intros;
  repeat match goal with
         | H : exists _, _ |- _ => destruct H
         | H : _ /\ _ |- _ => destruct H
         | H : Some _ = Some _ |- _ => injection H as H; subst
         | H : VStr _ = VStr _ |- _ => injection H as H; subst
         end;
  try congruence; try discriminate; eauto 10.

(** X8: in a reachable world [server_ssdp_xml] returns the empty string
    exactly when no tracked instance is alive, [None] exactly when the
    tracked instance is alive with its flag set, and a document exactly when
    the tracked instance is alive with its flag false: then it is that
    instance's description.xml, which is not empty. *)
Theorem server_ssdp_xml_cases (w : world) (Hreach : reachable w) :
  (server_ssdp_xml w = VStr [] <-> tracked_alive w = false) /\
  (server_ssdp_xml w = VNone <->
     exists o, tracked w = Some o /\
       Thread.is_alive (SSDP.thread o) = true /\ SSDP.__stop o = true) /\
  (forall doc, doc <> [] ->
     (server_ssdp_xml w = VStr doc <->
        exists o, tracked w = Some o /\
          Thread.is_alive (SSDP.thread o) = true /\
          SSDP.__stop o = false /\ SSDP.__myxml o = doc)).
Proof.
  rewrite server_ssdp_xml_value. unfold tracked_alive.
  pose proof (reachable_tracked_xml w) as Hx.
  destruct (tracked w) as [o|].
  - specialize (Hx o Hreach eq_refl).
    destruct (Thread.is_alive (SSDP.thread o)) eqn:A;
      destruct (SSDP.__stop o) eqn:F; by_cases.
  - by_cases.
Qed.

Lemma server_ssdp_xml_cases_witness :
  reachable Sample.started /\
  server_ssdp_xml Sample.started = VStr (SSDP.__myxml Sample.instance) /\
  tracked_alive Sample.started = true.
Proof.
  assert (H : reachable Sample.started)
    by (exists [Sample.start_call]; vm_compute; reflexivity).
  split; [exact H|].
  destruct (server_ssdp_xml_cases _ H) as (H1 & _ & H3).
  split.
  - apply H3; [vm_compute; discriminate|].
    exists Sample.instance. repeat split; vm_compute; reflexivity.
  - vm_compute. reflexivity.
Defined.

(** The tracked instance in a later world, when [start_ssdp] was not called
    in between. *)
Lemma tracked_later es w w' r o :
  forallb (fun e => negb (is_start_ssdp e)) es = true ->
  exec es w = Some w' -> __SSDP w = Some r -> heap w !! r = Some o ->
  exists o', tracked w' = Some o' /\ heap w' !! r = Some o' /\
    Spec.evolves o o' /\
    (Obs.rank (SSDP.thread o) <= Obs.rank (SSDP.thread o'))%nat.
Proof.
  intros Hn He Hg Hr.
  destruct (exec_lookup _ _ _ _ _ He Hr) as (o' & Hr' & Hev).
  destruct (exec_rank _ _ _ _ _ He Hr) as (o2 & Hr2 & L).
  assert (o2 = o') by congruence. subst o2.
  exists o'. unfold tracked. rewrite (exec_global es w w' Hn He), Hg. auto.
Qed.

(** X12: as long as [start_ssdp] is not called again, what
    [server_ssdp_xml] returns only degrades: a document stays the same
    document until it gives way to [None] or to the empty string, [None]
    never turns back into a document, and the empty string stays. *)
Theorem server_ssdp_xml_only_degrades (es : list event) (w w' : world)
    (Hreach : reachable w)
    (Hnostart : forallb (fun e => negb (is_start_ssdp e)) es = true)
    (Hexec : exec es w = Some w') :
  (server_ssdp_xml w' = server_ssdp_xml w \/
   server_ssdp_xml w' = VNone \/ server_ssdp_xml w' = VStr []) /\
  (server_ssdp_xml w = VStr [] -> server_ssdp_xml w' = VStr []) /\
  (server_ssdp_xml w = VNone ->
     server_ssdp_xml w' = VNone \/ server_ssdp_xml w' = VStr []).
Proof.
  pose proof (reachable_tracked_started w Hreach) as Ht.
  pose proof (reachable_tracked_xml w) as Hx.
  rewrite !server_ssdp_xml_value.
  destruct (__SSDP w) as [r|] eqn:Hg.
  - destruct Ht as (o & Hr & Hn).
    destruct (tracked_later es w w' r o Hnostart Hexec Hg Hr)
      as (o' & Ht' & _ & (Hf & Hs & Hterm) & L).
    assert (Htr : tracked w = Some o) by (unfold tracked; now rewrite Hg).
    specialize (Hx o Hreach Htr). rewrite Ht', Htr.
    assert (Hxml : SSDP.__myxml o' = SSDP.__myxml o)
      by (unfold frozen in Hf; congruence).
    rewrite Hxml.
    destruct (SSDP.thread o) as [|p|] eqn:T; [congruence| |].
    + cbn [Thread.is_alive].
      destruct (Thread.is_alive (SSDP.thread o')) eqn:A';
        destruct (SSDP.__stop o) eqn:F; destruct (SSDP.__stop o') eqn:F';
        try (specialize (Hs eq_refl); discriminate);
        repeat split; auto; try discriminate; intros [= E]; congruence.
    + rewrite (Hterm eq_refl). cbn [Thread.is_alive]. auto.
  - assert (Htr : tracked w = None) by (unfold tracked; now rewrite Hg).
    assert (Htr' : tracked w' = None).
    { unfold tracked. now rewrite (exec_global es w w' Hnostart Hexec), Hg. }
    rewrite Htr, Htr'. auto.
Qed.

Lemma server_ssdp_xml_only_degrades_witness :
  let es := [Run 0 true; CallStop 0; Run 0 false] in
  reachable Sample.started /\
  forallb (fun e => negb (is_start_ssdp e)) es = true /\
  (exists w', exec es Sample.started = Some w' /\
              server_ssdp_xml w' = VStr []) /\
  server_ssdp_xml Sample.started = VStr (SSDP.__myxml Sample.instance).
Proof.
  intros es.
  assert (H1 : reachable Sample.started)
    by (exists [Sample.start_call]; vm_compute; reflexivity).
  assert (H2 : forallb (fun e => negb (is_start_ssdp e)) es = true)
    by reflexivity.
  assert (H3 : exec es Sample.started =
               Some (World [SSDP.set_thread Thread.Terminated
                              (SSDP.stop Sample.instance)]
                           (Some 0%nat) [] Ready))
    by (vm_compute; reflexivity).
  pose proof (server_ssdp_xml_only_degrades es _ _ H1 H2 H3) as (Ha & _).
  split; [exact H1|]. split; [exact H2|].
  split; [eexists; split; [exact H3 | reflexivity]|].
  vm_compute. reflexivity.
Defined.

Lemma server_ssdp_xml_ended w o :
  tracked w = Some o -> SSDP.thread o = Thread.Terminated ->
  server_ssdp_xml w = VStr [] /\ tracked_alive w = false.
Proof.
  intros Ht Hterm. rewrite server_ssdp_xml_value. unfold tracked_alive.
  now rewrite Ht, Hterm.
Qed.

(** X9: once a call of [stop_ssdp] has returned, and until [start_ssdp] is
    called again, no tracked instance is alive and [server_ssdp_xml]
    returns the empty string, whatever else happens. *)
Theorem stop_ssdp_then_empty (es : list event) (w w' : world)
    (Hreach : reachable w)
    (Hexec : exec (CallStopSsdp :: es) w = Some w')
    (Hnostart : forallb (fun e => negb (is_start_ssdp e)) es = true)
    (Hback : caller w' = Ready) :
  server_ssdp_xml w' = VStr [] /\ tracked_alive w' = false.
Proof.
  pose proof (reachable_tracked_started w Hreach) as Ht.
  cbn [exec] in Hexec.
  destruct (step CallStopSsdp w) as [w1|] eqn:Es; [|discriminate].
  cbn [step] in Es. destruct (is_ready w); [|discriminate].
  destruct (stop_ssdp_cases w) as [[E Hn]|(r0 & o0 & Hg & Hr0 & Ha & E)];
    rewrite E in Es; injection Es as <-.
  - destruct (__SSDP w) as [r|] eqn:Hg.
    + destruct Ht as (o & Hr & Hi).
      assert (Htr : tracked w = Some o) by (unfold tracked; now rewrite Hg).
      specialize (Hn o Htr).
      assert (Hterm : SSDP.thread o = Thread.Terminated).
      { destruct (SSDP.thread o); [congruence | discriminate | reflexivity]. }
      destruct (tracked_later es w w' r o Hnostart Hexec Hg Hr)
        as (o' & Ht' & _ & (_ & _ & Hkeep) & _).
      apply (server_ssdp_xml_ended w' o' Ht'). auto.
    + assert (Htr' : tracked w' = None).
      { unfold tracked. now rewrite (exec_global es w w' Hnostart Hexec), Hg. }
      rewrite server_ssdp_xml_value. unfold tracked_alive.
      now rewrite Htr'.
  - set (w1 := set_caller (InJoin r0)
                 (set_heap (<[r0:=SSDP.stop o0]> (heap w)) w)) in *.
    assert (Hr1 : heap w1 !! r0 = Some (SSDP.stop o0)).
    { apply list_lookup_insert_eq. eapply lookup_lt_Some; eauto. }
    assert (Hj : Spec.joined r0 w1)
      by (exists (SSDP.stop o0); repeat split; auto).
    destruct (exec_joined _ _ _ _ Hexec Hj) as (o' & Hr' & _ & [Hterm|Hc]);
      [|congruence].
    apply (server_ssdp_xml_ended w' o'); [|exact Hterm].
    unfold tracked. rewrite (exec_global es w1 w' Hnostart Hexec).
    cbn [w1 set_caller set_heap __SSDP]. now rewrite Hg.
Qed.

Lemma stop_ssdp_then_empty_witness :
  let es := [Run 0 true; JoinDone; CallStart 0] in
  reachable Sample.started /\
  (exists w', exec (CallStopSsdp :: es) Sample.started = Some w' /\
     caller w' = Ready /\ server_ssdp_xml w' = VStr []) /\
  forallb (fun e => negb (is_start_ssdp e)) es = true.
Proof.
  intros es.
  assert (H1 : reachable Sample.started)
    by (exists [Sample.start_call]; vm_compute; reflexivity).
  assert (H2 : exec (CallStopSsdp :: es) Sample.started =
               Some (World [SSDP.set_thread Thread.Terminated
                              (SSDP.stop Sample.instance)]
                           (Some 0%nat) [] Ready))
    by (vm_compute; reflexivity).
  assert (H3 : forallb (fun e => negb (is_start_ssdp e)) es = true)
    by reflexivity.
  split; [exact H1|]. split; [|exact H3].
  eexists. split; [exact H2|]. split; [reflexivity|].
  exact (proj1 (stop_ssdp_then_empty es _ _ H1 H2 H3 eq_refl)).
Defined.



End Wrappers.

(** ** When construction fails *)

Section Construction.
Import Py.

Lemma utf8_char_encodable c :
  match utf8_char c with
  | Some _ => Obs.encodable_char c = true
  | None => Obs.encodable_char c = false
  end.
Proof.
  unfold utf8_char, Obs.encodable_char.
  destruct (Z.ltb_spec c 0), (Z.ltb_spec c 128), (Z.ltb_spec c 2048),
    (Z.ltb_spec c 65536), (Z.ltb_spec c 1114112), (Z.leb_spec 0 c),
    (Z.leb_spec 55296 c), (Z.leb_spec c 57343);
    cbn [andb negb]; try reflexivity; lia.
Qed.

Lemma utf8_outcome s :
  if Obs.encodable s then exists bs, utf8 s = Ok bs
  else utf8 s = Raise UnicodeEncodeError.
Proof.
  unfold Obs.encodable. induction s as [|c s IH]; cbn [forallb utf8].
  - eauto.
  - pose proof (utf8_char_encodable c) as Hc.
    destruct (utf8_char c) as [e|]; rewrite Hc; cbn [andb]; [|reflexivity].
    destruct (forallb Obs.encodable_char s).
    + destruct IH as [bs ->]. eauto.
    + now rewrite IH.
Qed.

Lemma encodable_app a b :
  Obs.encodable (a ++ b) = Obs.encodable a && Obs.encodable b.
Proof. apply forallb_app. Qed.

Lemma encodable_replace s :
  Obs.encodable (replace_lf_crlf s) = Obs.encodable s.
Proof.
  unfold Obs.encodable. induction s as [|c s IH]; [reflexivity|].
  cbn [replace_lf_crlf]. destruct (c =? LF) eqn:E; cbn [forallb];
    rewrite IH; [|reflexivity].
  apply Z.eqb_eq in E. subst c. reflexivity.
Qed.

Lemma encodable_ascii s : is_ascii s = true -> Obs.encodable s = true.
Proof.
  unfold is_ascii, Obs.encodable. rewrite !forallb_forall.
  intros H c Hc. specialize (H c Hc). apply andb_prop in H as [H0 H1].
  apply Z.leb_le in H0. apply Z.ltb_lt in H1. unfold Obs.encodable_char.
  destruct (Z.leb_spec 0 c), (Z.ltb_spec c 1114112), (Z.leb_spec 55296 c),
    (Z.leb_spec c 57343); cbn [andb negb]; try reflexivity; lia.
Qed.

Lemma encodable_broadcast u id :
  Obs.encodable
    (replace_lf_crlf (SSDP.broadcast_text u (UUID.to_str id)))
  = Obs.encodable u.
Proof.
  rewrite encodable_replace. unfold SSDP.broadcast_text.
  rewrite !encodable_app, (encodable_ascii _ (is_ascii_uuid id)).
  destruct (Obs.encodable u); vm_compute; reflexivity.
Qed.

(** X6: construction fails in two ways only.  An exception of
    [socket.gethostname()] comes out as it is.  Otherwise construction
    succeeds exactly when hostname, host and URL hold no surrogate code
    point (nothing UTF-8 cannot encode), and raises [UnicodeEncodeError]
    when one of them does; [server_name] and [description] never matter. *)
Theorem construction_outcome g (h n u d : str) :
  match g with
  | Raise e => SSDP.__init__ g h n u d = Raise e
  | Ok hn =>
      if Obs.encodable (hn ++ h) && Obs.encodable u
      then exists o, SSDP.__init__ g h n u d = Ok o
      else SSDP.__init__ g h n u d = Raise UnicodeEncodeError
  end.
Proof.
  destruct g as [hn|e]; [|reflexivity].
  unfold SSDP.__init__. cbn [bind]. unfold UUID.uuid3 at 1 2.
  pose proof (utf8_outcome (hn ++ h)) as Hn.
  destruct (Obs.encodable (hn ++ h)); cbn [andb].
  - destruct Hn as [name ->]. cbn [bind].
    set (id := UUID.with_version _ 3).
    pose proof (utf8_outcome
                  (replace_lf_crlf (SSDP.broadcast_text u (UUID.to_str id))))
      as Hb.
    rewrite encodable_broadcast in Hb.
    destruct (Obs.encodable u).
    + destruct Hb as [bs ->]. cbn [bind]. eauto.
    + rewrite Hb. reflexivity.
  - rewrite Hn. reflexivity.
Qed.

(** X7: [start_ssdp] has the outcomes of the construction.  When the
    construction raises, the exception comes out of [start_ssdp] and nothing
    has changed: the instance tracked before is still the tracked one.
    Otherwise the call returns normally, the new instance is added, tracked
    and running, with its flag false. *)
Theorem start_ssdp_outcome g (h n u d : str) (w : world) :
  match g with
  | Raise e => start_ssdp g h n u d w = (w, Raise e)
  | Ok hn =>
      if Obs.encodable (hn ++ h) && Obs.encodable u
      then exists o,
             start_ssdp g h n u d w =
               (World (heap w ++ [o]) (Some (length (heap w))) (sent w)
                      (caller w), Ok tt) /\
             SSDP.thread o = Thread.Running Thread.LoopTest /\
             SSDP.__stop o = false /\
             SSDP.__url o = u /\ SSDP.__myhostname o = hn
      else start_ssdp g h n u d w = (w, Raise UnicodeEncodeError)
  end.
Proof.
  pose proof (construction_outcome g h n u d) as Hc.
  destruct (start_ssdp_cases g h n u d w) as [(e & Hi & E)|(o & Hi & E)];
    rewrite E; rewrite Hi in Hc.
  - destruct g as [hn|e0]; [|congruence].
    destruct (Obs.encodable (hn ++ h) && Obs.encodable u);
      [destruct Hc; discriminate | congruence].
  - destruct g as [hn|e0]; [|discriminate].
    destruct (Obs.encodable (hn ++ h) && Obs.encodable u); [|discriminate].
    apply init_inv in Hi
      as (x & [= <-] & _ & _ & _ & _ & _ & Hu & _ & Hh & Hf & _).
    eexists. split; [reflexivity|]. cbn. auto.
Qed.

End Construction.

(** ** The identifier as text *)

Section Identifier.
Import Py.

Lemma version_nibble bs :
  Z.land (Z.shiftr (UUID.with_version bs 3) 76) 15 = 3.
Proof.
  unfold UUID.with_version. set (i := UUID.from_bytes bs).
  apply Z.bits_inj'. intros n Hn.
  rewrite Z.land_spec, Z.shiftr_spec by lia.
  destruct (Z_lt_le_dec n 4) as [Hl|Hl].
  - rewrite Z.lor_spec, Z.ldiff_spec.
    assert (Hcases : n = 0 \/ n = 1 \/ n = 2 \/ n = 3) by lia.
    destruct Hcases as [-> | [-> | [-> | ->]]];
      match goal with
      | |- context [Z.testbit (Z.lor ?a ?b) ?k] =>
          generalize (Z.testbit (Z.lor a b) k)
      end; intros b; destruct b; reflexivity.
  - rewrite (Z.bits_above_log2 15 n), (Z.bits_above_log2 3 n)
      by (try (cbn; lia); lia).
    apply andb_false_r.
Qed.

Lemma variant_nibble bs :
  8 <= Z.land (Z.shiftr (UUID.with_version bs 3) 60) 15 < 12.
Proof.
  set (y := Z.land (Z.shiftr (UUID.with_version bs 3) 60) 15).
  assert (H3 : Z.testbit y 3 = true).
  { unfold y, UUID.with_version. set (i := UUID.from_bytes bs).
    rewrite Z.land_spec, Z.shiftr_spec by lia.
    rewrite ?Z.lor_spec, ?Z.ldiff_spec, ?Z.lor_spec, ?Z.ldiff_spec.
    generalize (Z.testbit i (3 + 60)). intros b. destruct b; reflexivity. }
  assert (H2 : Z.testbit y 2 = false).
  { unfold y, UUID.with_version. set (i := UUID.from_bytes bs).
    rewrite Z.land_spec, Z.shiftr_spec by lia.
    rewrite ?Z.lor_spec, ?Z.ldiff_spec, ?Z.lor_spec, ?Z.ldiff_spec.
    generalize (Z.testbit i (2 + 60)). intros b. destruct b; reflexivity. }
  assert (Hy : 0 <= y < 16).
  { unfold y. change 15 with (Z.ones 4). rewrite Z.land_ones by lia.
    apply Z.mod_pos_bound. reflexivity. }
  rewrite Z.testbit_true in H3 by lia.
  rewrite Z.testbit_false in H2 by lia.
  change (2 ^ 3) with 8 in H3. change (2 ^ 2) with 4 in H2.
  clearbody y. Z.to_euclidean_division_equations. lia.
Qed.

Lemma to_str_nth14 u :
  nth 14 (UUID.to_str u) 0 = UUID.hex_digit (Z.land (Z.shiftr u 76) 15).
Proof. reflexivity. Qed.

Lemma to_str_nth19 u :
  nth 19 (UUID.to_str u) 0 = UUID.hex_digit (Z.land (Z.shiftr u 60) 15).
Proof. reflexivity. Qed.

Lemma uuid3_value ns name u :
  UUID.uuid3 ns name = Ok u ->
  exists bs, Forall (fun b => 0 <= b < 256) bs /\ (length bs <= 16)%nat /\
             u = UUID.with_version bs 3.
Proof.
  unfold UUID.uuid3. intros H. apply bind_Ok in H as (nb & _ & H).
  injection H as <-. eexists. split; [|split; [|reflexivity]].
  - apply Forall_take, digest_bound.
  - rewrite length_take. lia.
Qed.

(** X10: the identifier of every constructed instance is a number below
    2^128, and its text, as it stands in both payloads, has the shape of a
    version-3 RFC 4122 UUID: 36 characters, lower-case hexadecimal digits
    with dashes after the 8th, 12th, 16th and 20th digit, the digit 3 at
    the head of the third group and one of 8, 9, a, b at the head of the
    fourth. *)
Theorem identifier_is_uuid3_text g h n u d (o : SSDP.t)
    (Hinit : SSDP.__init__ g h n u d = Ok o) :
  0 <= SSDP.__uuid o < 2 ^ 128 /\
  Forall Spec.hexdash (UUID.to_str (SSDP.__uuid o)) /\
  Obs.uuid3_shape (UUID.to_str (SSDP.__uuid o)).
Proof.
  apply init_inv in Hinit as (hn & _ & Hu & _).
  apply uuid3_value in Hu as (bs & Hb & Hl & ->).
  split; [now apply with_version_bound|].
  split; [apply to_str_hexdash|].
  unfold Obs.uuid3_shape.
  split; [apply to_str_length|]. do 4 (split; [reflexivity|]).
  split.
  - rewrite to_str_nth14, version_nibble. reflexivity.
  - rewrite to_str_nth19. pose proof (variant_nibble bs) as Hv.
    set (y := Z.land _ 15) in *. unfold UUID.hex_digit.
    destruct (Z.ltb_spec y 10); lia.
Qed.

Lemma identifier_is_uuid3_text_witness :
  Sample.construct = Ok Sample.fresh /\
  UUID.to_str (SSDP.__uuid Sample.fresh)
    = lit "e41987f2-716b-3512-9c06-d1caf88b08bb" /\
  Obs.uuid3_shape (UUID.to_str (SSDP.__uuid Sample.fresh)).
Proof.
  assert (H : Sample.construct = Ok Sample.fresh) by (vm_compute; reflexivity).
  split; [exact H|]. split; [vm_compute; reflexivity|].
  exact (proj2 (proj2 (identifier_is_uuid3_text _ _ _ _ _ _ H))).
Defined.

Lemma duplicate_found (l : list Z) :
  ~ NoDup l ->
  exists i j x, (i < j)%nat /\ l !! i = Some x /\ l !! j = Some x.
Proof.
  induction l as [|x l IH]; intros Hn; [destruct Hn; constructor|].
  destruct (decide (x ∈ l)) as [Hin|Hout].
  - apply list_elem_of_lookup in Hin as [j Hj].
    exists 0%nat, (S j), x. split; [lia|]. auto.
  - destruct IH as (i & j & y & Hij & Hi & Hj).
    { intros Hnd. apply Hn. now apply NoDup_cons. }
    exists (S i), (S j), y. split; [lia|]. auto.
Qed.

Lemma collision_below (M : nat) (f : nat -> Z) :
  (forall i, 0 <= f i < Z.of_nat M) ->
  exists i j, (i < j <= M)%nat /\ f i = f j.
Proof.
  intros Hr.
  destruct (decide (NoDup (f <$> seq 0 (S M)))) as [Hnd|Hnd].
  - exfalso.
    assert (Hsub : f <$> seq 0 (S M) ⊆+ Z.of_nat <$> seq 0 M).
    { apply NoDup_submseteq; [exact Hnd|]. intros x Hx.
      apply list_elem_of_fmap in Hx as (i & -> & _).
      apply list_elem_of_fmap. exists (Z.to_nat (f i)).
      specialize (Hr i). split; [lia|]. apply elem_of_seq. lia. }
    apply submseteq_length in Hsub.
    rewrite !length_fmap, !length_seq in Hsub. lia.
  - destruct (duplicate_found _ Hnd) as (i & j & x & Hij & Hi & Hj).
    rewrite list_lookup_fmap in Hi, Hj.
    destruct (seq 0 (S M) !! i) as [i'|] eqn:Ei; [|discriminate].
    destruct (seq 0 (S M) !! j) as [j'|] eqn:Ej; [|discriminate].
    apply lookup_seq in Ei as [-> Hi']. apply lookup_seq in Ej as [-> Hj'].
    cbn in Hi, Hj. exists i, j. split; [lia|]. congruence.
Qed.

(** X11: the identifier does not tell hosts apart without fail.  There are
    two different host strings that, with one hostname and everything else
    equal, construct instances with the same identifier: there are more
    host strings than the 2^128 values an identifier can take. *)
Theorem two_hosts_share_an_identifier :
  exists h1 h2 o1 o2,
    h1 <> h2 /\
    SSDP.__init__ (Ok Sample.hostname) h1 Sample.server_name Sample.url
                  Sample.description = Ok o1 /\
    SSDP.__init__ (Ok Sample.hostname) h2 Sample.server_name Sample.url
                  Sample.description = Ok o2 /\
    SSDP.__uuid o1 = SSDP.__uuid o2.
Proof.
  set (f := fun i : nat =>
    match SSDP.__init__ (Ok Sample.hostname) (repeat 48 i) Sample.server_name
            Sample.url Sample.description with
    | Ok o => SSDP.__uuid o
    | Raise _ => 0
    end).
  assert (Hok : forall i, exists o,
    SSDP.__init__ (Ok Sample.hostname) (repeat 48 i) Sample.server_name
      Sample.url Sample.description = Ok o /\ f i = SSDP.__uuid o /\
    0 <= f i < 2 ^ 128).
  { intros i.
    destruct (init_succeeds Sample.hostname (repeat 48 i) Sample.server_name
                Sample.url Sample.description) as (o & Ho & Hb);
      [reflexivity | apply is_ascii_zeros | reflexivity |].
    exists o. subst f. cbv beta. rewrite Ho. auto. }
  destruct (collision_below (Z.to_nat (2 ^ 128)) f) as (i & j & Hij & E).
  { intros i. destruct (Hok i) as (_ & _ & _ & Hb).
    rewrite Z2Nat.id by lia. exact Hb. }
  destruct (Hok i) as (oi & Hi & Ei & _).
  destruct (Hok j) as (oj & Hj & Ej & _).
  exists (repeat 48 i), (repeat 48 j), oi, oj.
  split; [|split; [exact Hi | split; [exact Hj | congruence]]].
  intros Hr. apply repeat_inj in Hr. lia.
Qed.

End Identifier.
